(** * marathon-scripts: the audit flattener, the weekly snapshot mailer and the
department attendance mailer, embedded from
[finance-weekly-internal-audit/Code.js] and the attendance script. *)

From Stdlib Require Import ZArith List String Ascii Bool Lia DecimalString.
From Stdlib Require Import Floats.SpecFloat.
From stdpp Require Import base decidable option list strings gmap.

Local Open Scope string_scope.
Local Open Scope Z_scope.
Local Open Scope list_scope.

(** ** JavaScript values as the scripts see them *)

Module JS.

(** IEEE 754 binary64, the only JavaScript number type. *)
Definition prec : Z := 53.
Definition emax : Z := 1024.
Abbreviation number := spec_float (only parsing).

Definition isNaN (x : number) : bool :=
  match x with S754_nan => true | _ => false end.

(** [x === 0] on numbers: both zeros compare equal to 0. *)
Definition isZero (x : number) : bool := SFeqb x (S754_zero false).

(** A value returned by [Range.getValue]/[getValues]: a Number, Boolean,
  Date or String, the empty string for a blank cell.  [null] is never
  returned by the sheet but the flattener tests for it. *)
Inductive cell : Type :=
  | CNull
  | CBool (b : bool)
  | CNum (x : number)
  | CStr (s : string)
  | CDate (t : Z).

#[global] Instance spec_float_eq_dec : EqDecision spec_float.
Proof. solve_decision. Defined.

#[global] Instance cell_eq_dec : EqDecision cell.
Proof. solve_decision. Defined.

(** ToBoolean. *)
Definition truthy (c : cell) : bool :=
  match c with
  | CNull => false
  | CBool b => b
  | CNum x => negb (isNaN x || isZero x)
  | CStr s => negb (String.eqb s "")
  | CDate _ => true
  end.

(** [cell === "" || cell === null] *)
Definition isBlank (c : cell) : bool :=
  match c with
  | CStr s => String.eqb s ""
  | CNull => true
  | _ => false
  end.

(** A time value is a number of milliseconds or NaN ([None]). *)
Abbreviation time := (option Z) (only parsing).

Definition maxTime : Z := 8640000000000000.

(** TimeClip on an integral time value. *)
Definition TimeClip (t : Z) : time :=
  if Z.abs t <=? maxTime then Some t else None.

(** TimeClip(ToNumber(x)) for a number: NaN and the infinities are not
  times; a finite value [m * 2^e] is compared with the bound and then
  truncated toward zero. *)
Definition numberTime (x : number) : time :=
  match x with
  | S754_zero _ => Some 0
  | S754_finite s m e =>
    let v := if 0 <=? e then Z.pos m * 2 ^ e
             else Z.pos m / 2 ^ (- e) in
    let exceeds := if 0 <=? e then maxTime <? Z.pos m * 2 ^ e
                   else maxTime * 2 ^ (- e) <? Z.pos m in
    if exceeds then None else Some (if s then - v else v)
  | _ => None
  end.

(** [a <= b] and [a > b] on time values: false as soon as one is NaN. *)
Definition le (a b : time) : bool :=
  match a, b with
  | Some x, Some y => x <=? y
  | _, _ => false
  end.

Definition gt (a b : time) : bool :=
  match a, b with
  | Some x, Some y => y <? x
  | _, _ => false
  end.

(** [Array.prototype.slice(start, end)] for indices within [0, +oo). *)
Definition slice {A : Type} (l : list A) (start end_ : nat) : list A :=
  take (end_ - start) (drop start l).

(** *** Strings *)

Definition LF : ascii := "010"%char.
Definition DQ : ascii := "034"%char.
Definition COMMA : ascii := ","%char.

(** [s.includes(c)] for a one-character needle. *)
Fixpoint includes (c : ascii) (s : string) : bool :=
  match s with
  | EmptyString => false
  | String a r => Ascii.eqb a c || includes c r
  end.

(** White space and line terminators of the 8-bit range (strings are
    sequences of 8-bit characters here). *)
Definition isWhiteSpace (c : ascii) : bool :=
  let n := nat_of_ascii c in
  ((9 <=? n) && (n <=? 13) || (n =? 32) || (n =? 160))%nat.

Fixpoint trimStart (s : string) : string :=
  match s with
  | String a r => if isWhiteSpace a then trimStart r else s
  | EmptyString => EmptyString
  end.

Fixpoint trimEnd (s : string) : string :=
  match s with
  | EmptyString => EmptyString
  | String a r =>
    match trimEnd r with
    | EmptyString => if isWhiteSpace a then EmptyString else String a EmptyString
    | r' => String a r'
    end
  end.

(** [s.trim()] *)
Definition trim (s : string) : string := trimEnd (trimStart s).

(** [s.startsWith(p)], with the rest of [s] after [p]. *)
Fixpoint stripPrefix (p s : string) : option string :=
  match p, s with
  | EmptyString, _ => Some s
  | String a p', String b s' => if Ascii.eqb a b then stripPrefix p' s' else None
  | String _ _, EmptyString => None
  end.

(** [parts.join(sep)] *)
Fixpoint join (sep : string) (parts : list string) : string :=
  match parts with
  | [] => EmptyString
  | [x] => x
  | x :: rest => x ++ sep ++ join sep rest
  end.

(** *** Numbers and their texts *)

Definition digitValue (c : ascii) : option Z :=
  let n := nat_of_ascii c in
  if ((48 <=? n) && (n <=? 57))%nat then Some (Z.of_nat n - 48) else None.

(** The longest run of decimal digits at the head of [s], accumulated into
    [acc]; [n] counts the digits read. *)
Fixpoint readDigits (s : string) (acc n : Z) : Z * Z * string :=
  match s with
  | String c r =>
    match digitValue c with
    | Some d => readDigits r (10 * acc + d) (n + 1)
    | None => (acc, n, s)
    end
  | EmptyString => (acc, n, s)
  end.

(** The Number value of [m * 10^k] with sign [neg]: round to nearest, ties
    to even. *)
Definition decimalToNumber (neg : bool) (m k : Z) : number :=
  match m with
  | Zpos p =>
    if 0 <=? k then binary_normalize prec emax (cond_Zopp neg (Zpos p * 10 ^ k)) 0 neg
    else SFdiv prec emax (S754_finite neg p 0)
                         (S754_finite false (Z.to_pos (10 ^ (- k))) 0)
  | _ => S754_zero neg
  end.

(** The exponent part [e|E [+|-] digits] when complete, else none. *)
Definition readExponent (s : string) : Z :=
  match s with
  | String c r =>
    if Ascii.eqb c "e" || Ascii.eqb c "E" then
      let '(neg, r1) :=
        match r with
        | String "-" r' => (true, r')
        | String "+" r' => (false, r')
        | _ => (false, r)
        end in
      let '(v, n, _) := readDigits r1 0 0 in
      if 0 <? n then cond_Zopp neg v else 0
    else 0
  | EmptyString => 0
  end.

(** [parseFloat(s)]: leading white space is skipped, the longest prefix
    that is a StrDecimalLiteral is converted, NaN when there is none. *)
Definition parseFloat (s : string) : number :=
  let t := trimStart s in
  let '(neg, u) :=
    match t with
    | String "-" r => (true, r)
    | String "+" r => (false, r)
    | _ => (false, t)
    end in
  match stripPrefix "Infinity" u with
  | Some _ => S754_infinity neg
  | None =>
    let '(ip, nip, r1) := readDigits u 0 0 in
    match r1 with
    | String "." r2 =>
      let '(m, nfp, r3) := readDigits r2 ip 0 in
      if 0 <? nip + nfp then decimalToNumber neg m (readExponent r3 - nfp)
      else S754_nan
    | _ =>
      if 0 <? nip then decimalToNumber neg ip (readExponent r1) else S754_nan
    end
  end.

(** The exact value of a finite number as a fraction [(num, den)] with
    [den] a power of two. *)
Definition exactValue (s : bool) (m : positive) (e : Z) : Z * Z :=
  if 0 <=? e then (cond_Zopp s (Z.pos m * 2 ^ e), 1)
  else (cond_Zopp s (Z.pos m), 2 ^ (- e)).

(** [Math.round(x)]: the integer [floor(x + 1/2)], kept with exponent 0;
    a result 0 keeps the sign of [x]. *)
Definition Math_round (x : number) : number :=
  match x with
  | S754_finite s m e =>
    let '(num, den) := exactValue s m e in
    match (2 * num + den) / (2 * den) with
    | Z0 => S754_zero s
    | Zpos r => S754_finite false r 0
    | Zneg r => S754_finite true r 0
    end
  | _ => x
  end.


(** The decimal digits of an integer. *)
Definition Z_toString (z : Z) : string := NilZero.string_of_int (Z.to_int z).

Section NumberToString.

(** Number::toString for a value that is not an integer below 2^53 in
    magnitude (the shortest digits that round-trip, with zeros or an
    exponent after them): left to the host. *)
Variable Number_toString_other : number -> string.

(** Number::toString(x).  Below 2^53 every integer is a Number and its
    neighbours are integers too, so the shortest digits that read back as
    [x] are the decimal digits of [x]; from 2^53 on the shortest digits may
    denote another integer than [x]. *)
Definition Number_toString (x : number) : string :=
  match x with
  | S754_nan => "NaN"
  | S754_infinity false => "Infinity"
  | S754_infinity true => "-Infinity"
  | S754_zero _ => "0"
  | S754_finite s m e =>
    let '(num, den) := exactValue s m e in
    if (num mod den =? 0) && (Z.abs (num / den) <? 2 ^ 53)
    then Z_toString (num / den)
    else Number_toString_other x
  end.

End NumberToString.

End JS.

Import JS.

(** ** The flattening transform ([flattenTransactionsAudit]) *)

Module Flatten.

Definition STATIC_COLS : nat := 4.
Definition AUDIT_GROUP_SIZE : nat := 17.
Definition NUMBER_OF_GROUPS : nat := 20.
Definition EXPECTED_TOTAL_COLS : nat :=
  (STATIC_COLS + AUDIT_GROUP_SIZE * NUMBER_OF_GROUPS)%nat.

Definition headers : list string :=
  [ "Timestamp"; "Email Address"; "Choose Request"; "Date - Monday"; "T Ref No.";
  "FIN-1 HOD signature Amend Amount & Description";
  "FIN-2 Checked by, Approved by, Prepared by";
  "FIN-3 Xero System bills"; "FIN-4 Budget, Approval Request";
  "FIN-5 Debit Voucher, Business Unit (To tick)";
  "FIN-6 Bank Balance - Daily Update"; "FIN-7 Cash Balance";
  "FIN-8 Daily Entry update in System";
  "FIN-9 Bank A/C, Bank Information for payment (Correct)";
  "FIN-10 Avoid of duplicating transfer (Accounting Bill only)";
  "FIN-11 Daily update Xero";
  "FIN-12 Description Accuracy"; "FIN-13 Completion of Source Document";
  "FIN-14 Advance Form Compliance"; "FIN-15 Accuracy of Amount"; "T Remark" ].

Abbreviation row := (list cell) (only parsing).

(** The target sheet: its rows in columns A..U, first row first, and the
  reserved cell Z1 that keeps the last processed timestamp. *)
Record target : Type := Target { body : list row; Z1 : cell }.

(** [getLastRow()]: the last row that has content; Z1 lies in row 1. *)
Definition getLastRow (t : target) : nat :=
  match body t with
  | [] => if decide (Z1 t = CStr "") then 0%nat else 1%nat
  | _ => length (body t)
  end.

Section Host.

(** [new Date(s).getTime()] for a string [s]: the host's date parser,
    [None] when the text is not a date (NaN). *)
Variable Date_parse : string -> time.

(** [new Date(v).getTime()] *)
Definition getTime (v : cell) : time :=
  match v with
  | CNull => Some 0
  | CBool b => Some (if b then 1 else 0)
  | CNum x => numberTime x
  | CStr s => Date_parse s
  | CDate t => TimeClip t
  end.

(** [lastTimestampValue ? new Date(lastTimestampValue).getTime() : 0] *)
Definition lastDateOf (lastTimestampValue : cell) : time :=
  if truthy lastTimestampValue then getTime lastTimestampValue else Some 0.

Definition startIndex (group : nat) : nat :=
  (STATIC_COLS + group * AUDIT_GROUP_SIZE)%nat.

Definition auditGroupData (r : row) (group : nat) : row :=
  slice r (startIndex group) (startIndex group + AUDIT_GROUP_SIZE).

(** One iteration of the inner loop over the groups. *)
Definition groupStep (r staticData : row) (newRows : list row) (group : nat)
  : list row :=
  if forallb isBlank (auditGroupData r group) then newRows
  else newRows ++ [staticData ++ auditGroupData r group].

(** One iteration of the outer loop: the state is [newRows] and
    [newLastTimestamp]. *)
Definition rowStep (lastDate : time) (st : list row * cell) (r : row)
  : list row * cell :=
  let '(newRows, newLastTimestamp) := st in
  if (length r <? EXPECTED_TOTAL_COLS)%nat then st else
  match r with
  | [] => st
  | timestampValue :: _ =>
      if negb (truthy timestampValue) then st else
      let currentDate := getTime timestampValue in
      if le currentDate lastDate then st else
      let staticData := slice r 0 STATIC_COLS in
      let newRows' :=
        fold_left (groupStep r staticData) (seq 0 NUMBER_OF_GROUPS) newRows in
      let newLastTimestamp' :=
        if gt currentDate (getTime newLastTimestamp)
           || bool_decide (newLastTimestamp = CStr "")
        then timestampValue else newLastTimestamp in
      (newRows', newLastTimestamp')
  end.

(** The loop over [data[1..]] started from [newRows = []] and
    [newLastTimestamp = lastTimestampValue]. *)
Definition flatten (data : list row) (lastTimestampValue : cell)
  : list row * cell :=
  fold_left (rowStep (lastDateOf lastTimestampValue)) (drop 1 data)
            ([], lastTimestampValue).

Definition headerRow : row := map CStr headers.

(** Rows [startRow ..] receive [newRows]; a sheet whose only content is
    Z1 has an empty first row in columns A..U. *)
Definition writeRows (t : target) (newRows : list row) : target :=
  match newRows with
  | [] => t
  | _ => Target (body t ++ replicate (getLastRow t - length (body t)) []
                        ++ newRows) (Z1 t)
  end.

(** The whole entry point on the source table [data] (header row
    first) and the target sheet.  Step 5 writes Z1 only when the value
    changed; for Date objects [!==] compares identities, and writing a
    date equal to the one already stored leaves the sheet as it was. *)
Definition flattenTransactionsAudit (data : list row) (t : target) : target :=
  let lastTimestampValue := Z1 t in
  if (length data <=? 1)%nat then t else
  let t1 := if (getLastRow t =? 0)%nat then Target [headerRow] (Z1 t) else t in
  let '(newRows, newLastTimestamp) := flatten data lastTimestampValue in
  let t2 := writeRows t1 newRows in
  if decide (newLastTimestamp = lastTimestampValue) then t2
  else Target (body t2) newLastTimestamp.

(** *** Words for the statements about a run *)

(** The rows one eligible source row contributes, group by group. *)
Definition emittedBy (r : row) : list row :=
  fold_left (groupStep r (slice r 0 STATIC_COLS)) (seq 0 NUMBER_OF_GROUPS) [].

Definition groupOutput (r : row) (group : nat) : list row :=
  if forallb isBlank (auditGroupData r group) then []
  else [take STATIC_COLS r ++ auditGroupData r group].

(** [row[0]] *)
Definition timestampOf (r : row) : cell :=
  match r with
  | timestampValue :: _ => timestampValue
  | [] => CStr ""
  end.

(** A row the outer loop does not skip, in the words of the code. *)
Definition processed (lastDate : time) (r : row) : bool :=
  negb (length r <? EXPECTED_TOTAL_COLS)%nat
  && match r with
     | [] => false
     | timestampValue :: _ =>
       truthy timestampValue && negb (le (getTime timestampValue) lastDate)
     end.

(** Step 3 of the outer loop, on the watermark alone. *)
Definition advance (newLastTimestamp timestampValue : cell) : cell :=
  if gt (getTime timestampValue) (getTime newLastTimestamp)
     || bool_decide (newLastTimestamp = CStr "")
  then timestampValue else newLastTimestamp.

(** Every full-length row with a non-empty timestamp has one the host reads
    as an instant. *)
Definition timestampsValid (rows : list row) : Prop :=
  forall r, r ∈ rows -> (EXPECTED_TOTAL_COLS <= length r)%nat ->
    truthy (timestampOf r) = true -> is_Some (getTime (timestampOf r)).

(** The stored watermark is blank or a value the host reads as an instant. *)
Definition watermarkValid (w : cell) : Prop :=
  w = CStr "" \/ is_Some (getTime w).

End Host.

(** *** Sample tables *)

(** A source row used in the examples: the four static cells, one audit
    group of seventeen cells, and nineteen empty groups. *)
Definition staticCells (timestampValue : cell) : row :=
  [ timestampValue; CStr "e@x.com"; CStr "req"; CStr "2024-01-01" ].

Definition filledGroup : row :=
  CStr "ref no." :: replicate 15 (CStr "PASS") ++ [CStr "remark"].

Definition sourceRow (timestampValue : cell) : row :=
  staticCells timestampValue ++ filledGroup
    ++ replicate (AUDIT_GROUP_SIZE * 19) (CStr "").

Definition sourceHeader : row := replicate EXPECTED_TOTAL_COLS (CStr "h").

(** A date parser that knows no date at all. *)
Definition noDates : string -> time := fun _ => None.

End Flatten.

(** ** The weekly snapshot mailer ([sendFormattedEmail]) *)

Module Weekly.

Section Host.

(** [Utilities.formatDate(d, Session.getScriptTimeZone(), "MM-dd-yyyy HH:mm:ss")]
    on the time value of a Date. *)
Variable formatDate : Z -> string.

Variable Number_toString_other : number -> string.

(** [timestampCell.toString()] of a value that is no Date.  [null] has no
    such method; the function has returned before it gets there. *)
Definition toString (c : cell) : string :=
  match c with
  | CStr s => s
  | CBool true => "true"
  | CBool false => "false"
  | CNum x => Number_toString Number_toString_other x
  | CDate t => formatDate t
  | CNull => ""
  end.

(** [(timestampCell instanceof Date) ? Utilities.formatDate(...) :
    timestampCell.toString()] *)
Definition currentTimestampOf (timestampCell : cell) : string :=
  match timestampCell with
  | CDate t => formatDate t
  | c => toString c
  end.

(** What a run leaves behind: whether [MailApp.sendEmail] was called, the
    script property [lastSentTicketTimestamp], and the log. *)
Record outcome : Type := Outcome {
  attempted : bool;
  lastSentTicketTimestamp : option string;
  logged : list string
}.

(** [sendFormattedEmail] on the timestamp cell A1, the stored property
    ([None] when it was never set) and the transport's answer to the call
    ([true]: it returns, [false]: it throws [e]). *)
Definition sendFormattedEmail (timestampCell : cell) (lastTimestamp : option string)
    (sendReturns : bool) (e : string) : outcome :=
  if negb (truthy timestampCell) then
    Outcome false lastTimestamp ["No timestamp found, email not sent."]
  else
    let currentTimestamp := currentTimestampOf timestampCell in
    if negb (String.eqb currentTimestamp "")
       && negb (bool_decide (Some currentTimestamp = lastTimestamp))
    then
      if sendReturns then
        Outcome true (Some currentTimestamp) ["Email sent successfully."]
      else
        Outcome true lastTimestamp [("!Error sending weekly audit email: " ++ e)%string]
    else
      Outcome false lastTimestamp ["No new timestamp or timestamp already processed!"].

End Host.

End Weekly.

(** ** The department attendance mailer *)

Module Attendance.

(** An attendance record: the nine keys, in the order the object literal of
    [getAttendanceRows_] creates them; every value is a string. *)
Record AttendanceRecord : Type := Rec {
  Department : string;
  Name : string;
  EmployeeID : string;
  AMFaceScan : string;
  PMFaceScan : string;
  AttendanceCol : string;
  HRAdj : string;
  KPILeave : string;
  KPIPercent : string
}.

#[global] Instance AttendanceRecord_eq_dec : EqDecision AttendanceRecord.
Proof. solve_decision. Defined.

(** [Object.keys(record)] *)
Definition recordKeys : list string :=
  [ "Department"; "Name"; "Employee ID"; "AM Face Scan"; "PM Face Scan";
    "Attendance"; "HR - Adj"; "KPI Leave"; "KPI (%)" ].

Definition recordValues (r : AttendanceRecord) : list string :=
  [ Department r; Name r; EmployeeID r; AMFaceScan r; PMFaceScan r;
    AttendanceCol r; HRAdj r; KPILeave r; KPIPercent r ].

(** [row[header]]: [None] is [undefined]. *)
Definition getField (r : AttendanceRecord) (header : string) : option string :=
  snd <$> List.find (fun kv => String.eqb (fst kv) header)
                    (combine recordKeys (recordValues r)).

(** *** A plain object used as a dictionary: its own properties and the
    order in which the keys were created.  A key it does not own is looked
    up in [Object.prototype]. *)

Record JSObject (V : Type) : Type := Obj {
  own : gmap string V;
  created : list string
}.
Arguments Obj {V} _ _.
Arguments own {V} _.
Arguments created {V} _.

Definition emptyObject {V : Type} : JSObject V := Obj ∅ [].

(** The own property [k] of [o], as [Object.keys] and the loop over the
    keys see it. *)
Definition get {V : Type} (o : JSObject V) (k : string) : option V := own o !! k.

(** The names every plain object inherits from [Object.prototype]. *)
Definition Object_prototype_names : list string :=
  [ "constructor"; "__defineGetter__"; "__defineSetter__"; "hasOwnProperty";
    "__lookupGetter__"; "__lookupSetter__"; "isPrototypeOf";
    "propertyIsEnumerable"; "toString"; "valueOf"; "__proto__";
    "toLocaleString" ].

Definition inherited (k : string) : bool :=
  existsb (String.eqb k) Object_prototype_names.

(** The value of [o[k]]: the own property, else the member of
    [Object.prototype] of that name (a function, or the prototype itself for
    [__proto__]: truthy, and no array), else [undefined]. *)
Inductive property (V : Type) : Type :=
| Own (v : V)
| Inherited
| Undefined.
Arguments Own {V} _.
Arguments Inherited {V}.
Arguments Undefined {V}.

(** [o[k]] *)
Definition readProperty {V : Type} (o : JSObject V) (k : string) : property V :=
  match own o !! k with
  | Some v => Own v
  | None => if inherited k then Inherited else Undefined
  end.

(** [o[k] = v] *)
Definition set {V : Type} (o : JSObject V) (k : string) (v : V) : JSObject V :=
  Obj (<[k := v]> (own o))
      (if decide (is_Some (own o !! k)) then created o else created o ++ [k]).

(** An array index: a canonical numeric string below 2^32 - 1. *)
Definition arrayIndex (k : string) : option Z :=
  match k with
  | EmptyString => None
  | String c r =>
    let '(v, _, rest) := readDigits k 0 0 in
    if String.eqb rest ""
       && (negb (Ascii.eqb c "0") || String.eqb r "")
       && (v <? 4294967295)
    then Some v else None
  end.

Fixpoint insertIndex (x : Z * string) (l : list (Z * string)) : list (Z * string) :=
  match l with
  | [] => [x]
  | y :: l' => if fst x <=? fst y then x :: l else y :: insertIndex x l'
  end.

(** [Object.keys(o)]: array indices in ascending order, then the other
    keys in creation order. *)
Definition Object_keys {V : Type} (o : JSObject V) : list string :=
  let indices :=
    omap (fun k => (fun i => (i, k)) <$> arrayIndex k) (created o) in
  map snd (fold_right insertIndex [] indices)
  ++ List.filter (fun k => negb (bool_decide (is_Some (arrayIndex k)))) (created o).

(** *** [groupRowsByDepartment_] *)

(** The reducer: a truthy department gets its array when [acc[department]]
    is undefined, then the row is pushed.  [None]: the TypeError of
    [acc[department].push] when [acc[department]] is an inherited member,
    which is truthy (no array is created) and has no [push]. *)
Definition groupReducer (acc : JSObject (list AttendanceRecord)) (row : AttendanceRecord)
    : option (JSObject (list AttendanceRecord)) :=
  let department := Department row in
  if negb (String.eqb department "") then
    let acc1 := match readProperty acc department with
                | Undefined => set acc department []
                | _ => acc
                end in
    match readProperty acc1 department with
    | Own l => Some (set acc1 department (l ++ [row]))
    | Inherited => None
    | Undefined => None
    end
  else Some acc.

(** [rows.reduce(reducer, acc)]; a throw of the reducer ends it. *)
Fixpoint reduce (rows : list AttendanceRecord) (acc : JSObject (list AttendanceRecord))
    : option (JSObject (list AttendanceRecord)) :=
  match rows with
  | [] => Some acc
  | row :: rest =>
    match groupReducer acc row with
    | Some acc' => reduce rest acc'
    | None => None
    end
  end.

(** [None]: the grouping throws a TypeError. *)
Definition groupRowsByDepartment_ (rows : list AttendanceRecord)
    : option (JSObject (list AttendanceRecord)) :=
  reduce rows emptyObject.

(** *** The loop of [sendAttendancePerDepartment] *)

Record summary : Type := Summary {
  departmentsProcessed : nat;
  emailsSent : nat;
  departmentsSkippedNoData : nat;
  departmentsSkippedNoEmail : nat;
  sendAttempts : list string
}.

Definition summary0 : summary := Summary 0 0 0 0 [].

Section Transport.

(** The body of the inner [try] for a department ([buildHtmlTable_],
    [toCsvBlob_], [sendDepartmentEmail_]): [true] when it completes, [false]
    when it throws. *)
Variable trySend : string -> string -> list AttendanceRecord -> bool.

(** One iteration of [for (const department of departments)].  [None] is a
    TypeError that leaves the loop ([departmentRows] undefined).  The
    departments are the keys of the grouping: none of them names an
    inherited member, so that [groupedData[department]] and
    [deptEmailsMap[department]] are own properties or undefined. *)
Definition departmentStep (groupedData : JSObject (list AttendanceRecord))
    (deptEmailsMap : gmap string string) (st : summary) (department : string)
    : option summary :=
  let processed := S (departmentsProcessed st) in
  departmentRows ← get groupedData department;
  let recipients := deptEmailsMap !! department in
  if (length departmentRows =? 0)%nat then
    Some (Summary processed (emailsSent st) (S (departmentsSkippedNoData st))
                  (departmentsSkippedNoEmail st) (sendAttempts st))
  else
    match recipients with
    | Some to_ =>
      if String.eqb to_ "" || String.eqb (trim to_) "" then
        Some (Summary processed (emailsSent st) (departmentsSkippedNoData st)
                      (S (departmentsSkippedNoEmail st)) (sendAttempts st))
      else if trySend department to_ departmentRows then
        Some (Summary processed (S (emailsSent st)) (departmentsSkippedNoData st)
                      (departmentsSkippedNoEmail st) (sendAttempts st ++ [department]))
      else
        Some (Summary processed (emailsSent st) (departmentsSkippedNoData st)
                      (departmentsSkippedNoEmail st) (sendAttempts st ++ [department]))
    | None =>
      Some (Summary processed (emailsSent st) (departmentsSkippedNoData st)
                    (S (departmentsSkippedNoEmail st)) (sendAttempts st))
    end.

Fixpoint departmentLoop (groupedData : JSObject (list AttendanceRecord))
    (deptEmailsMap : gmap string string) (st : summary) (departments : list string)
    : option summary :=
  match departments with
  | [] => Some st
  | department :: rest =>
    st' ← departmentStep groupedData deptEmailsMap st department;
    departmentLoop groupedData deptEmailsMap st' rest
  end.

(** How a run ends: the no-data alert, the outer [catch] (a TypeError of
    the grouping or of the loop), or the summary. *)
Inductive runResult : Type :=
| NoAttendanceData
| FatalError
| Completed (s : summary).

(** [sendAttendancePerDepartment] from the records read off the Attendance
    sheet and the department-to-recipients map.  A TypeError of the grouping
    or of the loop ends in the outer [catch]. *)
Definition sendAttendancePerDepartment (attendanceData : list AttendanceRecord)
    (deptEmailsMap : gmap string string) : runResult :=
  if (length attendanceData =? 0)%nat then NoAttendanceData else
  match groupRowsByDepartment_ attendanceData with
  | None => FatalError
  | Some groupedData =>
    let departments := Object_keys groupedData in
    match departmentLoop groupedData deptEmailsMap summary0 departments with
    | Some s => Completed s
    | None => FatalError
    end
  end.

End Transport.

(** *** [toCsvBlob_] *)

(** [value.replace] with the global pattern of one double quote: every
    double quote is written twice. *)
Fixpoint doubleQuotes (value : string) : string :=
  match value with
  | EmptyString => EmptyString
  | String c r =>
    if Ascii.eqb c DQ then String DQ (String DQ (doubleQuotes r))
    else String c (doubleQuotes r)
  end.

(** The value of one field as written to the file. *)
Definition csvValue (value : string) : string :=
  if includes COMMA value || includes LF value
  then String DQ (doubleQuotes value ++ String DQ EmptyString)
  else value.

Definition csvLine (fields : list string) : string :=
  join "," fields ++ String LF EmptyString.

Record Blob : Type := NewBlob {
  content : string;
  contentType : string;
  filename : string
}.

(** [toCsvBlob_(rows, filename)]; [None] is [null]. *)
Definition toCsvBlob_ (rows : list AttendanceRecord) (name : string) : option Blob :=
  match rows with
  | [] => None
  | first :: _ =>
    let headers := recordKeys in
    let csvContent :=
      fold_left
        (fun (csvContent : string) row =>
           let rowValues :=
             map (fun header =>
                    let value := match getField row header with
                                 | Some v => v
                                 | None => ""
                                 end in
                    csvValue value) headers in
           (csvContent ++ csvLine rowValues)%string)
        rows (csvLine headers) in
    Some (NewBlob csvContent "text/csv" name)
  end.

(** *** The cells of [buildHtmlTable_] *)

Definition hundred : number := binary_normalize prec emax 100 0 false.

Section Render.

Variable Number_toString_other : number -> string.

(** The text of a cell of the KPI percent column. *)
Definition kpiText (cellValue : string) : string :=
  let numericValue := parseFloat cellValue in
  if isNaN numericValue || isZero numericValue then "0%"
  else Number_toString Number_toString_other
         (Math_round (SFmul prec emax numericValue hundred)) ++ "%".

(** The alignment and the text of the cell of [row] under [header]. *)
Definition renderCell (row : AttendanceRecord) (header : string) : string * string :=
  let cellValue := match getField row header with
                   | Some v => v
                   | None => ""
                   end in
  let '(textAlign, cellValue) :=
    if String.eqb header "Name" then ("left", cellValue)
    else if String.eqb header "KPI (%)" then ("center", kpiText cellValue)
    else ("center", cellValue) in
  (textAlign, if String.eqb cellValue "" then "0" else cellValue).

End Render.

(** *** Words for the statements about the grouping *)

(** The rows of department [d], in source order. *)
Definition rowsOf (d : string) (rows : list AttendanceRecord) : list AttendanceRecord :=
  filter (fun row => Department row = d) rows.

(** [r] with its department replaced by [d]. *)
Definition withDepartment (d : string) (r : AttendanceRecord) : AttendanceRecord :=
  Rec d (Name r) (EmployeeID r) (AMFaceScan r) (PMFaceScan r)
      (AttendanceCol r) (HRAdj r) (KPILeave r) (KPIPercent r).

(** *** A sample record *)

(** A name that is a quotation, double quotes included. *)
Definition quotedName : string := String DQ (String "A" (String "J" (String DQ EmptyString))).

Definition quoteRecord : AttendanceRecord :=
  Rec "4.Finance" quotedName "E1" "" "" "" "" "" "0.95".

End Attendance.

(** ** A reader of comma-separated text

    The specification measures [toCsvBlob_] against a standard reader:
    fields separated by commas, rows ended by a line feed, a field enclosed
    in double quotes holding commas, line feeds and doubled quotes (RFC 4180).
    This reader follows those rules, not the script. *)

Module Csv.

Inductive state : Type :=
| FieldStart
| Unquoted
| Quoted
| QuoteInQuoted.

Definition snoc (s : string) (c : ascii) : string :=
  (s ++ String c EmptyString)%string.

(** [parseFrom st field fields rows text]: [field] is the text of the field
    being read, [fields] the fields already read in the current row, [rows]
    the rows already read.  [None]: the text is not well formed (a quote
    inside a bare field, text after a closing quote, a quote never closed). *)
Fixpoint parseFrom (st : state) (field : string) (fields : list string)
    (rows : list (list string)) (text : string) : option (list (list string)) :=
  match text with
  | EmptyString =>
    match st with
    | FieldStart =>
      match fields with
      | [] => Some rows
      | _ => Some (rows ++ [fields ++ [field]])
      end
    | Unquoted | QuoteInQuoted => Some (rows ++ [fields ++ [field]])
    | Quoted => None
    end
  | String c rest =>
    match st with
    | FieldStart =>
      if Ascii.eqb c DQ then parseFrom Quoted EmptyString fields rows rest
      else if Ascii.eqb c COMMA then
        parseFrom FieldStart EmptyString (fields ++ [EmptyString]) rows rest
      else if Ascii.eqb c LF then
        parseFrom FieldStart EmptyString [] (rows ++ [fields ++ [EmptyString]]) rest
      else parseFrom Unquoted (String c EmptyString) fields rows rest
    | Unquoted =>
      if Ascii.eqb c DQ then None
      else if Ascii.eqb c COMMA then
        parseFrom FieldStart EmptyString (fields ++ [field]) rows rest
      else if Ascii.eqb c LF then
        parseFrom FieldStart EmptyString [] (rows ++ [fields ++ [field]]) rest
      else parseFrom Unquoted (snoc field c) fields rows rest
    | Quoted =>
      if Ascii.eqb c DQ then parseFrom QuoteInQuoted field fields rows rest
      else parseFrom Quoted (snoc field c) fields rows rest
    | QuoteInQuoted =>
      if Ascii.eqb c DQ then parseFrom Quoted (snoc field DQ) fields rows rest
      else if Ascii.eqb c COMMA then
        parseFrom FieldStart EmptyString (fields ++ [field]) rows rest
      else if Ascii.eqb c LF then
        parseFrom FieldStart EmptyString [] (rows ++ [fields ++ [field]]) rest
      else None
    end
  end.

Definition parse (text : string) : option (list (list string)) :=
  parseFrom FieldStart EmptyString [] [] text.

(** *** Words for the statements about the reader *)

(** Where the reader stands after a field ended by [sep]. *)
Definition afterField (sep : ascii) (field : string) (fields : list string)
    (rows : list (list string)) (rest : string) : option (list (list string)) :=
  if Ascii.eqb sep COMMA
  then parseFrom FieldStart "" (fields ++ [field]) rows rest
  else parseFrom FieldStart "" [] (rows ++ [fields ++ [field]]) rest.

Definition isSeparator (sep : ascii) : Prop := sep = COMMA \/ sep = LF.

(** No double quote, comma or line feed. *)
Definition bare (v : string) : bool :=
  negb (includes DQ v) && negb (includes COMMA v) && negb (includes LF v).

(** A value the writer handles: one that holds a double quote also holds a
    comma or a line feed. *)
Definition restorable (v : string) : bool :=
  negb (includes DQ v) || includes COMMA v || includes LF v.

End Csv.

(** ** Reading the two sheets ([getAttendanceRows_], [getDeptEmails_]) *)

Module Ingest.

Import Attendance.

(** What a function throws: an [Error] with its message, or the TypeError
    of a method call on [null]. *)
Inductive thrown : Type :=
| Error (message : string)
| TypeError.

Section Host.

(** [Date.prototype.toString] on the time value of a Date. *)
Variable Date_toString : Z -> string.

Variable Number_toString_other : number -> string.

(** [c.toString()]; [None]: [c] is [null] and the call throws. *)
Definition cellToString (c : cell) : option string :=
  match c with
  | CNull => None
  | CBool true => Some "true"
  | CBool false => Some "false"
  | CNum x => Some (Number_toString Number_toString_other x)
  | CStr s => Some s
  | CDate t => Some (Date_toString t)
  end.

(** [h.toString().trim()] *)
Definition trimmedText (h : cell) : option string := trim <$> cellToString h.

(** [cell && cell.toString().trim() === name] *)
Definition isNamed (name : string) (c : cell) : bool :=
  truthy c
  && match trimmedText c with
     | Some s => String.eqb s name
     | None => false
     end.

(** The loop that looks for the header row, from row [i] on. *)
Fixpoint findHeaderRow (values : list (list cell)) (i : nat) : option nat :=
  match values with
  | [] => None
  | rowValues :: rest =>
    if existsb (isNamed "Department") rowValues then Some i
    else findHeaderRow rest (S i)
  end.

(** [headers.indexOf(name)], counted from [i]; [None] is -1. *)
Fixpoint indexOf (name : string) (headers : list string) (i : nat) : option nat :=
  match headers with
  | [] => None
  | h :: rest => if String.eqb h name then Some i else indexOf name rest (S i)
  end.

(** [row[idx] ? row[idx].toString().trim() : ""] *)
Definition fieldAt (row : list cell) (idx : nat) : string :=
  match row !! idx with
  | Some c =>
    if truthy c then
      match trimmedText c with
      | Some s => s
      | None => ""
      end
    else ""
  | None => ""
  end.

(** [row.some(cell => cell !== "")] *)
Definition notBlankRow (row : list cell) : bool :=
  existsb (fun c => negb (bool_decide (c = CStr ""))) row.

(** The column of each of the nine required headers. *)
Record headerMap : Type := HeaderMap {
  colDepartment : nat;
  colName : nat;
  colEmployeeID : nat;
  colAMFaceScan : nat;
  colPMFaceScan : nat;
  colAttendance : nat;
  colHRAdj : nat;
  colKPILeave : nat;
  colKPIPercent : nat
}.

(** [None]: some index is -1. *)
Definition attendanceHeaderMap (headers : list string) : option headerMap :=
  d ← indexOf "Department" headers 0;
  n ← indexOf "Name" headers 0;
  e ← indexOf "Employee ID" headers 0;
  am ← indexOf "AM Face Scan" headers 0;
  pm ← indexOf "PM Face Scan" headers 0;
  a ← indexOf "Attendance" headers 0;
  hr ← indexOf "HR - Adj" headers 0;
  kl ← indexOf "KPI Leave" headers 0;
  kp ← indexOf "KPI (%)" headers 0;
  Some (HeaderMap d n e am pm a hr kl kp).

Definition recordOf (hm : headerMap) (row : list cell) : AttendanceRecord :=
  Rec (fieldAt row (colDepartment hm)) (fieldAt row (colName hm))
      (fieldAt row (colEmployeeID hm)) (fieldAt row (colAMFaceScan hm))
      (fieldAt row (colPMFaceScan hm)) (fieldAt row (colAttendance hm))
      (fieldAt row (colHRAdj hm)) (fieldAt row (colKPILeave hm))
      (fieldAt row (colKPIPercent hm)).

Definition missingDepartment : string :=
  "Missing required headers in the Attendance sheet. Please ensure 'Department' is present in row 1.".

Definition missingAttendanceHeader : string :=
  "Missing one or more required headers in the Attendance sheet.".

Definition missingEmailHeader : string :=
  "Missing required headers in the DeptEmails sheet. Please ensure 'Department' and 'Emails' are present in row 1.".

(** [getAttendanceRows_] on the values of the data range of the sheet. *)
Definition getAttendanceRows_ (values : list (list cell))
    : list AttendanceRecord + thrown :=
  if (length values <=? 1)%nat then inl [] else
  match findHeaderRow values 0 with
  | None => inr (Error missingDepartment)
  | Some headerRowIndex =>
    match mapM trimmedText (default [] (values !! headerRowIndex)) with
    | None => inr TypeError
    | Some headers =>
      let data := List.filter notBlankRow (drop (S headerRowIndex) values) in
      match attendanceHeaderMap headers with
      | None => inr (Error missingAttendanceHeader)
      | Some hm => inl (map (recordOf hm) data)
      end
    end
  end.

(** One iteration of the loop that fills [emailMap].  An assignment to the
    key [__proto__] runs the setter of [Object.prototype], which ignores a
    string: no own property is created. *)
Definition emailStep (colDept colEmails : nat) (emailMap : gmap string string)
    (row : list cell) : gmap string string :=
  let department := fieldAt row colDept in
  let emails := fieldAt row colEmails in
  if negb (String.eqb department "") then
    if String.eqb department "__proto__" then emailMap
    else <[department := emails]> emailMap
  else emailMap.

(** [getDeptEmails_] on the values of the data range of the sheet; the map
    holds the own properties of [emailMap]. *)
Definition getDeptEmails_ (values : list (list cell)) : gmap string string + thrown :=
  if (length values <=? 1)%nat then inl ∅ else
  match values with
  | [] => inl ∅
  | headerRow :: rows =>
    match mapM trimmedText headerRow with
    | None => inr TypeError
    | Some headers =>
      match indexOf "Department" headers 0, indexOf "Emails" headers 0 with
      | Some colDept, Some colEmails =>
        inl (fold_left (emailStep colDept colEmails) rows ∅)
      | _, _ => inr (Error missingEmailHeader)
      end
    end
  end.

(** *** The entry point, sheets included *)

Variable trySend : string -> string -> list AttendanceRecord -> bool.

(** How [sendAttendancePerDepartment] ends: the alert for a missing sheet,
    the outer [catch] with what reading a sheet threw, or the run from the
    records on (which ends in the outer [catch] too when the grouping
    throws). *)
Inductive sheetRun : Type :=
| MissingSheets
| Fatal (e : thrown)
| Ran (r : runResult).

(** [sendAttendancePerDepartment] on the two sheets; [None] is a sheet that
    does not exist. *)
Definition sendAttendanceFromSheets (attendanceSheet deptEmailsSheet : option (list (list cell)))
    : sheetRun :=
  match attendanceSheet, deptEmailsSheet with
  | Some attendanceValues, Some deptEmailsValues =>
    match getAttendanceRows_ attendanceValues with
    | inr e => Fatal e
    | inl attendanceData =>
      if (length attendanceData =? 0)%nat then Ran NoAttendanceData else
      match getDeptEmails_ deptEmailsValues with
      | inr e => Fatal e
      | inl deptEmailsMap =>
        Ran (sendAttendancePerDepartment trySend attendanceData deptEmailsMap)
      end
    end
  | _, _ => MissingSheets
  end.

End Host.

End Ingest.

(** ** The message of [sendDepartmentEmail_] *)

Module Mail.

Definition DEPT_MAP : list (string * string) :=
  [ ("1.Admin & HR", "Admin and HR");
    ("13.Shwe_Zay", "Shwe Zay");
    ("3. M_BI", "M BI");
    ("4.Finance", "Finance");
    ("6.M_Tech", "M Tech");
    ("7.Marathon_Express", "Marathon Express");
    ("8.M_Kitchen", "M Kitchen");
    ("9.M_Oil", "M Oil") ].

(** [DEPT_MAP[department]]; [None] is [undefined] (own properties only). *)
Definition displayName (department : string) : option string :=
  snd <$> List.find (fun kv => String.eqb (fst kv) department) DEPT_MAP.

(** A value inside a template literal. *)
Definition templateText (v : option string) : string :=
  match v with
  | Some s => s
  | None => "undefined"
  end.

(** The subject line; [weekNum] is the text of cell E2. *)
Definition subjectOf (department weekNum : string) : string :=
  "Attendance (" ++ templateText (displayName department) ++ ") " ++ weekNum.

(** The greeting of the body. *)
Definition greetingOf (department : string) : string :=
  "Dear " ++ templateText (displayName department) ++ "'s HOD,".

End Mail.

(** ** Tables whose timestamps are all dates, as tests *)

Module FlattenChecks.

Import Flatten.

Section Host.

Variable Date_parse : string -> time.

Definition hasTime (c : cell) : bool :=
  match getTime Date_parse c with
  | Some _ => true
  | None => false
  end.

(** A row that is short, has an empty timestamp, or has a timestamp the
    host reads as an instant. *)
Definition datedRow (r : row) : bool :=
  (length r <? EXPECTED_TOTAL_COLS)%nat
  || negb (truthy (timestampOf r))
  || hasTime (timestampOf r).

Definition datedTable (data : list row) : bool :=
  forallb datedRow (drop 1 data).

(** A watermark that is blank or has a time value. *)
Definition datedWatermark (w : cell) : bool :=
  bool_decide (w = CStr "") || hasTime w.

End Host.

(** A sample table whose timestamps are instants, the newest in the middle. *)
Definition datedRows : list row :=
  [sourceHeader; sourceRow (CDate 500); sourceRow (CDate 1000); sourceRow (CDate 700)].

End FlattenChecks.

(** ** Words for the statements about the attendance run *)

Module AttendanceWords.

Import Attendance.

(** The keys in order of first appearance. *)
Definition addKey (seen : list string) (k : string) : list string :=
  if bool_decide (k ∈ seen) then seen else seen ++ [k].

Definition firstSeen (ks : list string) : list string := fold_left addKey ks [].

(** The departments of the records, empty ones left out. *)
Definition departmentsOf (rows : list AttendanceRecord) : list string :=
  List.filter (fun d => negb (String.eqb d "")) (map Department rows).

Definition isArrayIndex (k : string) : bool :=
  match arrayIndex k with
  | Some _ => true
  | None => false
  end.

(** [k] names no inherited member: [o[k]] is the own property or undefined. *)
Definition ownName (k : string) : bool :=
  negb (existsb (String.eqb k) Object_prototype_names).

(** The reducer where no inherited member is met: the array of the
    department is created on first sight and the row is pushed. *)
Definition ownReducer (acc : JSObject (list AttendanceRecord)) (row : AttendanceRecord)
    : JSObject (list AttendanceRecord) :=
  let department := Department row in
  if negb (String.eqb department "") then
    let acc1 := match get acc department with
                | None => set acc department []
                | Some _ => acc
                end in
    match get acc1 department with
    | Some l => set acc1 department (l ++ [row])
    | None => acc1
    end
  else acc.

Definition ownGrouping (rows : list AttendanceRecord)
    : JSObject (list AttendanceRecord) :=
  fold_left ownReducer rows emptyObject.

(** No record is of a department named after an inherited member. *)
Definition ownNamesOnly (rows : list AttendanceRecord) : bool :=
  forallb (fun row => ownName (Department row)) rows.

(** Sample records: two departments and a record without department. *)
Definition sampleRecords : list AttendanceRecord :=
  [ withDepartment "4.Finance" quoteRecord;
    withDepartment "3. M_BI" quoteRecord;
    withDepartment "" quoteRecord;
    withDepartment "4.Finance" quoteRecord;
    withDepartment "1.Admin & HR" quoteRecord ].

(** The map holds recipients for [d] that are not blank. *)
Definition hasRecipients (emails : gmap string string) (d : string) : bool :=
  match emails !! d with
  | Some to_ => negb (String.eqb (trim to_) "")
  | None => false
  end.

(** The inner [try] for [d] completes. *)
Definition sendSucceeds (trySend : string -> string -> list AttendanceRecord -> bool)
    (grouped : JSObject (list AttendanceRecord)) (emails : gmap string string)
    (d : string) : bool :=
  match emails !! d, get grouped d with
  | Some to_, Some rows => trySend d to_ rows
  | _, _ => false
  end.

(** Every value of every record is written back by the CSV reader. *)
Definition restorableRows (rows : list AttendanceRecord) : bool :=
  forallb (fun row => forallb Csv.restorable (recordValues row)) rows.

(** The keys created so far are the keys that hold a value. *)
Definition keysMatch {V : Type} (o : JSObject V) : Prop :=
  forall k, k ∈ created o <-> is_Some (get o k).

(** *** Words about the two sheets *)

Section Host.

Variable Date_toString : Z -> string.
Variable Number_toString_other : number -> string.

(** No cell of the row reads Department. *)
Definition noDepartmentCell (r : list cell) : bool :=
  negb (existsb (Ingest.isNamed Date_toString Number_toString_other "Department") r).

(** The recipients in the last row of department [d]. *)
Definition emailsOf (colDept colEmails : nat) (rows : list (list cell))
    (d : string) : option string :=
  (fun row => Ingest.fieldAt Date_toString Number_toString_other row colEmails)
  <$> last (List.filter
              (fun row =>
                 String.eqb
                   (Ingest.fieldAt Date_toString Number_toString_other row colDept) d)
              rows).

End Host.

(** Sample sheets. *)
Definition sampleTitleRow : list cell := [CStr "Weekly attendance"; CStr ""; CStr ""].

Definition sampleHeaderRow : list cell :=
  [ CStr "Name"; CStr " Department "; CStr "Employee ID"; CStr "AM Face Scan";
    CStr "PM Face Scan"; CStr "Attendance"; CStr "HR - Adj"; CStr "KPI Leave";
    CStr "KPI (%)" ].

Definition sampleBlankRow : list cell :=
  [CStr ""; CStr ""; CStr ""; CStr ""; CStr ""; CStr ""; CStr ""; CStr ""; CStr ""].

Definition sampleDataRows : list (list cell) :=
  [ [ CStr " Ann "; CStr "4.Finance "; CStr "E1"; CStr "P"; CStr "P"; CStr "1";
      CStr ""; CStr ""; CStr "0.95" ];
    [ CStr "Bo"; CStr " 3. M_BI"; CStr "E2"; CBool true; CStr ""; CStr "1";
      CStr ""; CStr ""; CStr "1" ] ].

Definition sampleEmailHeader : list cell := [CStr "Department"; CStr "Emails "].

Definition sampleEmailRows : list (list cell) :=
  [ [CStr "4.Finance"; CStr "old@example.org"];
    [CStr ""; CStr "nobody@example.org"];
    [CStr " 4.Finance "; CStr " fin@example.org "];
    [CStr "3. M_BI"; CStr "  "] ].

Definition sampleEmailSheet : list (list cell) := sampleEmailHeader :: sampleEmailRows.

Definition sampleAttendanceSheet : list (list cell) :=
  sampleTitleRow :: sampleHeaderRow :: sampleBlankRow :: sampleDataRows.

Definition sampleSheetRecords : list AttendanceRecord :=
  [ Rec "4.Finance" "Ann" "E1" "P" "P" "1" "" "" "0.95";
    Rec "3. M_BI" "Bo" "E2" "true" "" "1" "" "" "1" ].

Definition sampleEmailMap : gmap string string :=
  <[ "3. M_BI" := "" ]> {[ "4.Finance" := "fin@example.org" ]}.

Definition sampleDate (t : Z) : string := "Mon Jan 01 2024".

Definition sampleNumber (x : number) : string := "0.5".

End AttendanceWords.

(** * Properties of the flattening transform *)

Module FlattenFacts.

Import Flatten.

Lemma slice_0 {A : Type} (l : list A) (n : nat) : slice l 0 n = take n l.
Proof. unfold slice. rewrite Nat.sub_0_r. reflexivity. Qed.

Lemma auditGroupData_length (r : row) (group : nat) :
  (EXPECTED_TOTAL_COLS <= length r)%nat -> (group < NUMBER_OF_GROUPS)%nat ->
  length (auditGroupData r group) = AUDIT_GROUP_SIZE.
Proof.
  unfold auditGroupData, slice, startIndex, EXPECTED_TOTAL_COLS, NUMBER_OF_GROUPS,
    AUDIT_GROUP_SIZE, STATIC_COLS.
  intros Hlen Hg. rewrite length_take, length_drop. lia.
Qed.

Lemma fold_groupStep_app (r staticData : row) (groups : list nat) (newRows : list row) :
  fold_left (groupStep r staticData) groups newRows
  = newRows ++ concat (map (fun g =>
      if forallb isBlank (auditGroupData r g) then []
      else [staticData ++ auditGroupData r g]) groups).
Proof.
  revert newRows. induction groups as [|g groups IH]; intros newRows; simpl.
  - rewrite app_nil_r. reflexivity.
  - rewrite IH. unfold groupStep.
    destruct (forallb isBlank (auditGroupData r g)); simpl.
    + reflexivity.
    + rewrite <- app_assoc. reflexivity.
Qed.

Lemma emittedBy_groups (r : row) :
  emittedBy r = concat (map (groupOutput r) (seq 0 NUMBER_OF_GROUPS)).
Proof.
  unfold emittedBy. rewrite fold_groupStep_app. simpl app.
  rewrite slice_0. reflexivity.
Qed.

Section Host.

Variable Date_parse : string -> time.

Lemma rowStep_skipped (lastDate : time) (st : list row * cell) (r : row) :
  processed Date_parse lastDate r = false -> rowStep Date_parse lastDate st r = st.
Proof.
  unfold processed, rowStep. destruct st as [newRows w].
  destruct (length r <? EXPECTED_TOTAL_COLS)%nat; [reflexivity|].
  destruct r as [|ts rest]; [reflexivity|]. cbn [negb andb].
  destruct (truthy ts); cbn [negb andb]; [|reflexivity].
  destruct (le (getTime Date_parse ts) lastDate); cbn [negb]; [reflexivity|discriminate].
Qed.

Lemma rowStep_processed (lastDate : time) (newRows : list row) (w : cell) (r : row) :
  processed Date_parse lastDate r = true ->
  exists timestampValue rest,
    r = timestampValue :: rest /\
    rowStep Date_parse lastDate (newRows, w) r
    = (newRows ++ emittedBy r,
       if gt (getTime Date_parse timestampValue) (getTime Date_parse w)
          || bool_decide (w = CStr "")
       then timestampValue else w).
Proof.
  unfold processed. intros H.
  apply andb_true_iff in H as [Hlen H]. apply negb_true_iff in Hlen.
  destruct r as [|ts rest]; [discriminate|].
  apply andb_true_iff in H as [Hts Hle]. apply negb_true_iff in Hle.
  exists ts, rest. split; [reflexivity|].
  unfold rowStep. rewrite Hlen, Hts, Hle. cbn [negb].
  unfold emittedBy.
  rewrite (fold_groupStep_app _ _ _ newRows), (fold_groupStep_app _ _ _ []).
  reflexivity.
Qed.

(** The rows of a run are the rows of its processed source rows, in order. *)
Lemma fold_rowStep_rows (lastDate : time) (rows : list row) (newRows : list row) (w : cell) :
  fst (fold_left (rowStep Date_parse lastDate) rows (newRows, w))
  = newRows ++ concat (map emittedBy (List.filter (processed Date_parse lastDate) rows)).
Proof.
  revert newRows w. induction rows as [|r rows IH]; intros newRows w.
  - simpl. rewrite app_nil_r. reflexivity.
  - cbn [fold_left List.filter].
    destruct (processed Date_parse lastDate r) eqn:Hp.
    + destruct (rowStep_processed lastDate newRows w r Hp) as (ts & rest & _ & ->).
      rewrite IH. cbn [map concat]. rewrite <- app_assoc. reflexivity.
    + rewrite (rowStep_skipped lastDate (newRows, w) r Hp). apply IH.
Qed.

Lemma flatten_rows (data : list row) (lastTimestampValue : cell) :
  fst (flatten Date_parse data lastTimestampValue)
  = concat (map emittedBy
      (List.filter (processed Date_parse (lastDateOf Date_parse lastTimestampValue))
                   (drop 1 data))).
Proof. unfold flatten. rewrite fold_rowStep_rows. reflexivity. Qed.


Lemma groupOutput_shape (r : row) (group : nat) :
  (EXPECTED_TOTAL_COLS <= length r)%nat -> (group < NUMBER_OF_GROUPS)%nat ->
  Forall (fun out =>
            out = take STATIC_COLS r ++ auditGroupData r group
            /\ length (take STATIC_COLS r) = 4%nat
            /\ length (auditGroupData r group) = 17%nat)
         (groupOutput r group).
Proof.
  intros Hlen Hg. unfold groupOutput.
  destruct (forallb isBlank (auditGroupData r group)); constructor; [|constructor].
  split; [reflexivity|]. split.
  - rewrite length_take. unfold EXPECTED_TOTAL_COLS, STATIC_COLS in *. lia.
  - apply auditGroupData_length; assumption.
Qed.

Lemma processed_length (lastDate : time) (r : row) :
  processed Date_parse lastDate r = true -> (EXPECTED_TOTAL_COLS <= length r)%nat.
Proof.
  unfold processed. intros H. apply andb_true_iff in H as [H _].
  apply negb_true_iff, Nat.ltb_ge in H. exact H.
Qed.

(** C1, as the code has it: every row the transform emits has 21 values,
    the 4 static cells of its source row followed by all 17 cells of one of
    its audit groups, the first and the last cell of the group included; the
    header row written to the target has 21 labels as well. *)
Theorem flatten_rows_have_21_values (data : list row) (lastTimestampValue : cell) :
  Forall (fun out =>
            length out = 21%nat
            /\ exists src group,
                 src ∈ drop 1 data
                 /\ (group < NUMBER_OF_GROUPS)%nat
                 /\ out = take STATIC_COLS src ++ auditGroupData src group
                 /\ length (take STATIC_COLS src) = 4%nat
                 /\ length (auditGroupData src group) = 17%nat)
         (fst (flatten Date_parse data lastTimestampValue))
  /\ length headers = 21%nat.
Proof.
  split; [|reflexivity].
  rewrite flatten_rows. apply Forall_concat, Forall_map.
  apply Forall_forall. intros src Hsrc.
  apply list_elem_of_In, filter_In in Hsrc as [Hin Hp].
  apply list_elem_of_In in Hin. apply processed_length in Hp.
  rewrite emittedBy_groups. apply Forall_concat, Forall_map.
  apply Forall_forall. intros group Hgroup.
  apply list_elem_of_In, in_seq in Hgroup.
  eapply Forall_impl; [apply groupOutput_shape; [exact Hp | lia]|].
  intros out (-> & H4 & H17). split.
  - rewrite length_app, H4, H17. reflexivity.
  - exists src, group. repeat split; try assumption. lia.
Qed.




(** A full-length row whose timestamp is a text the host cannot read as a
    date is never skipped, whatever the watermark: NaN is not [<=] anything.
    It moves the watermark only when the watermark is still blank. *)
Lemma rowStep_unparsed (lastDate : time) (newRows : list row) (w : cell)
    (s : string) (rest : row) :
  Date_parse s = None -> s <> "" ->
  (EXPECTED_TOTAL_COLS <= length (CStr s :: rest))%nat ->
  rowStep Date_parse lastDate (newRows, w) (CStr s :: rest)
  = (newRows ++ emittedBy (CStr s :: rest),
     if bool_decide (w = CStr "") then CStr s else w).
Proof.
  intros Hparse Hs Hlen.
  assert (Hp : processed Date_parse lastDate (CStr s :: rest) = true).
  { unfold processed. apply andb_true_iff. split.
    - apply negb_true_iff, Nat.ltb_ge. exact Hlen.
    - cbn [truthy getTime]. rewrite Hparse.
      apply andb_true_iff. split; [|reflexivity].
      apply negb_true_iff, String.eqb_neq. exact Hs. }
  destruct (rowStep_processed lastDate newRows w _ Hp) as (ts & rest' & Heq & ->).
  injection Heq as <- <-. cbn [getTime]. rewrite Hparse. reflexivity.
Qed.

Lemma rowStep_date (lastDate : time) (newRows : list row) (w : cell)
    (t : Z) (rest : row) :
  le (TimeClip t) lastDate = false ->
  (EXPECTED_TOTAL_COLS <= length (CDate t :: rest))%nat ->
  rowStep Date_parse lastDate (newRows, w) (CDate t :: rest)
  = (newRows ++ emittedBy (CDate t :: rest),
     if gt (TimeClip t) (getTime Date_parse w) || bool_decide (w = CStr "")
     then CDate t else w).
Proof.
  intros Hle Hlen.
  assert (Hp : processed Date_parse lastDate (CDate t :: rest) = true).
  { unfold processed. apply andb_true_iff. split.
    - apply negb_true_iff, Nat.ltb_ge. exact Hlen.
    - cbn [truthy getTime]. rewrite Hle. reflexivity. }
  destruct (rowStep_processed lastDate newRows w _ Hp) as (ts & rest' & Heq & ->).
  injection Heq as <- <-. reflexivity.
Qed.

Lemma sourceRow_full (timestampValue : cell) :
  (EXPECTED_TOTAL_COLS <= length (sourceRow timestampValue))%nat.
Proof. vm_compute. lia. Qed.

Lemma sourceRow_emits (timestampValue : cell) :
  emittedBy (sourceRow timestampValue) = [staticCells timestampValue ++ filledGroup].
Proof. vm_compute. reflexivity. Qed.

(** C3, at a failing input: the source table has one row whose timestamp
    cell holds the text n/a, which the host cannot read as a date, and the
    target is empty.  The first run writes the header and one row and
    stores n/a as watermark; the second run on the same table writes the
    same row again. *)
Theorem flatten_second_run_repeats_row :
  Date_parse "n/a" = None ->
  let data := [sourceHeader; sourceRow (CStr "n/a")] in
  let out := staticCells (CStr "n/a") ++ filledGroup in
  let first := flattenTransactionsAudit Date_parse data (Target [] (CStr "")) in
  let second := flattenTransactionsAudit Date_parse data first in
  first = Target [headerRow; out] (CStr "n/a")
  /\ fst (flatten Date_parse data (Z1 first)) = [out]
  /\ second = Target [headerRow; out; out] (CStr "n/a").
Proof.
  intros Hparse data out.
  assert (Hrun : forall w, flatten Date_parse data w
                 = ([out], if bool_decide (w = CStr "") then CStr "n/a" else w)).
  { intros w. unfold flatten, data. cbn [drop fold_left].
    change (sourceRow (CStr "n/a"))
      with (CStr "n/a" :: tail (sourceRow (CStr "n/a"))).
    rewrite rowStep_unparsed; [|exact Hparse|discriminate|apply sourceRow_full].
    change (CStr "n/a" :: tail (sourceRow (CStr "n/a")))
      with (sourceRow (CStr "n/a")).
    rewrite sourceRow_emits. reflexivity. }
  assert (Hfirst : flattenTransactionsAudit Date_parse data (Target [] (CStr ""))
                   = Target [headerRow; out] (CStr "n/a")).
  { unfold flattenTransactionsAudit. cbn [Z1]. rewrite Hrun. reflexivity. }
  cbv zeta. rewrite Hfirst. cbn [Z1]. rewrite Hrun. repeat split.
  unfold flattenTransactionsAudit. cbn [Z1]. rewrite Hrun. reflexivity.
Qed.

(** C5, at a failing input: the target is empty and the source table has a
    row whose timestamp is the text n/a followed by a row dated 1000.  Both
    rows are processed, yet the new watermark is n/a, not the greatest
    timestamp (1000) among them, and it has no time value. *)
Theorem flatten_watermark_not_maximum :
  Date_parse "n/a" = None ->
  let data := [sourceHeader; sourceRow (CStr "n/a"); sourceRow (CDate 1000)] in
  flatten Date_parse data (CStr "")
  = ([staticCells (CStr "n/a") ++ filledGroup; staticCells (CDate 1000) ++ filledGroup],
     CStr "n/a")
  /\ getTime Date_parse (snd (flatten Date_parse data (CStr ""))) = None
  /\ getTime Date_parse (CDate 1000) = Some 1000.
Proof.
  intros Hparse data.
  assert (Hrun : flatten Date_parse data (CStr "")
                 = ([staticCells (CStr "n/a") ++ filledGroup;
                     staticCells (CDate 1000) ++ filledGroup], CStr "n/a")).
  { unfold flatten, data. cbn [drop fold_left].
    change (sourceRow (CStr "n/a"))
      with (CStr "n/a" :: tail (sourceRow (CStr "n/a"))).
    rewrite rowStep_unparsed; [|exact Hparse|discriminate|apply sourceRow_full].
    change (CStr "n/a" :: tail (sourceRow (CStr "n/a")))
      with (sourceRow (CStr "n/a")).
    rewrite (bool_decide_eq_true_2 (CStr "" = CStr "")) by reflexivity.
    change (sourceRow (CDate 1000))
      with (CDate 1000 :: tail (sourceRow (CDate 1000))).
    rewrite rowStep_date; [|reflexivity|apply sourceRow_full].
    change (CDate 1000 :: tail (sourceRow (CDate 1000)))
      with (sourceRow (CDate 1000)).
    rewrite !sourceRow_emits. cbn [getTime]. rewrite Hparse.
    rewrite (bool_decide_eq_false_2 (CStr "n/a" = CStr "")) by discriminate.
    reflexivity. }
  rewrite Hrun. cbn [snd getTime]. rewrite Hparse. repeat split.
Qed.

Lemma fold_rowStep_watermark (lastDate : time) (rows : list row)
    (newRows : list row) (w : cell) :
  snd (fold_left (rowStep Date_parse lastDate) rows (newRows, w))
  = fold_left (advance Date_parse)
      (map timestampOf (List.filter (processed Date_parse lastDate) rows)) w.
Proof.
  revert newRows w. induction rows as [|r rows IH]; intros newRows w.
  - reflexivity.
  - cbn [fold_left List.filter].
    destruct (processed Date_parse lastDate r) eqn:Hp.
    + destruct (rowStep_processed lastDate newRows w r Hp) as (ts & rest & -> & ->).
      rewrite IH. reflexivity.
    + rewrite (rowStep_skipped lastDate (newRows, w) r Hp). apply IH.
Qed.

Lemma truthy_not_blank (c : cell) : truthy c = true -> c <> CStr "".
Proof. intros H ->. discriminate H. Qed.

(** From a watermark that has a time value: the result has the greatest
    time value met, and is the first value that reaches it. *)
Lemma advance_fold_max (tss : list cell) (cur : cell) (c0 : Z) :
  cur <> CStr "" -> getTime Date_parse cur = Some c0 ->
  Forall (fun ts => ts <> CStr "" /\ is_Some (getTime Date_parse ts)) tss ->
  exists cr,
    getTime Date_parse (fold_left (advance Date_parse) tss cur) = Some cr
    /\ c0 <= cr
    /\ fold_left (advance Date_parse) tss cur <> CStr ""
    /\ Forall (fun ts => exists c, getTime Date_parse ts = Some c /\ c <= cr) tss
    /\ (fold_left (advance Date_parse) tss cur = cur /\ cr = c0
        \/ fold_left (advance Date_parse) tss cur ∈ tss).
Proof.
  revert cur c0. induction tss as [|ts tss IH]; intros cur c0 Hnb Hc0 Hall.
  - exists c0. cbn [fold_left]. repeat split; try assumption; try lia.
    + constructor.
    + left. split; reflexivity.
  - apply Forall_cons in Hall as [[Hts [c Hc]] Hall]. cbn [fold_left].
    assert (Hadv : advance Date_parse cur ts = if c0 <? c then ts else cur).
    { unfold advance. rewrite Hc, Hc0. cbn [gt].
      rewrite (bool_decide_eq_false_2 _ Hnb), orb_false_r. reflexivity. }
    rewrite Hadv. clear Hadv.
    destruct (c0 <? c) eqn:Hlt.
    + apply Z.ltb_lt in Hlt.
      destruct (IH ts c Hts Hc Hall) as (cr & Hcr & Hle & Hnb' & Hall' & Hin).
      exists cr. repeat split; try assumption; try lia.
      * constructor; [exists c; split; [assumption|lia] | assumption].
      * right. destruct Hin as [[-> _] | Hin]; [left | right; assumption].
    + apply Z.ltb_ge in Hlt.
      destruct (IH cur c0 Hnb Hc0 Hall) as (cr & Hcr & Hle & Hnb' & Hall' & Hin).
      exists cr. repeat split; try assumption.
      * constructor; [exists c; split; [assumption|lia] | assumption].
      * destruct Hin as [Hin | Hin]; [left; assumption | right; right; assumption].
Qed.

Lemma flatten_watermark (data : list row) (w : cell) :
  snd (flatten Date_parse data w)
  = fold_left (advance Date_parse)
      (map timestampOf
         (List.filter (processed Date_parse (lastDateOf Date_parse w)) (drop 1 data))) w.
Proof. unfold flatten. apply fold_rowStep_watermark. Qed.

Lemma processed_inv (lastDate : time) (r : row) :
  processed Date_parse lastDate r = true ->
  (EXPECTED_TOTAL_COLS <= length r)%nat
  /\ truthy (timestampOf r) = true
  /\ le (getTime Date_parse (timestampOf r)) lastDate = false.
Proof.
  unfold processed. intros H. apply andb_true_iff in H as [Hlen H].
  apply negb_true_iff, Nat.ltb_ge in Hlen.
  destruct r as [|ts rest]; [discriminate|].
  apply andb_true_iff in H as [Hts Hle]. apply negb_true_iff in Hle.
  repeat split; assumption.
Qed.

Lemma processed_later (l cr : Z) (r : row) :
  l <= cr -> processed Date_parse (Some l) r = false ->
  processed Date_parse (Some cr) r = false.
Proof.
  unfold processed. intros Hle H.
  destruct (length r <? EXPECTED_TOTAL_COLS)%nat; [reflexivity|].
  destruct r as [|ts rest]; [reflexivity|]. cbn [negb andb] in *.
  destruct (truthy ts); [|reflexivity]. cbn [andb] in *.
  apply negb_false_iff in H. apply negb_false_iff.
  destruct (getTime Date_parse ts) as [c|]; [|discriminate].
  cbn [le] in *. apply Z.leb_le in H. apply Z.leb_le. lia.
Qed.

Lemma falsy_time (w : cell) :
  truthy w = false -> w <> CStr "" -> is_Some (getTime Date_parse w) ->
  getTime Date_parse w = Some 0.
Proof.
  intros Hf Hnb [x Hx]. destruct w as [|b|x0|s|t]; cbn [truthy getTime] in *.
  - reflexivity.
  - rewrite Hf. reflexivity.
  - destruct x0 as [sg|sg| |sg m e]; try reflexivity; try discriminate.
    destruct sg; discriminate Hf.
  - apply negb_false_iff, String.eqb_eq in Hf. congruence.
  - discriminate.
Qed.

(** The time value the watermark is compared by. *)
Lemma lastDateOf_valid (w : cell) :
  watermarkValid Date_parse w ->
  exists l, lastDateOf Date_parse w = Some l
            /\ (w <> CStr "" -> getTime Date_parse w = Some l).
Proof.
  intros Hw. unfold lastDateOf.
  destruct (decide (w = CStr "")) as [->|Hnb].
  - exists 0. split; [reflexivity|congruence].
  - destruct Hw as [->|Hsome]; [congruence|].
    destruct (truthy w) eqn:Ht.
    + destruct Hsome as [l Hl]. exists l. split; [assumption|intros _; assumption].
    + exists 0. split; [reflexivity|]. intros _. apply falsy_time; assumption.
Qed.

(** The watermark after a run over a table whose timestamps are all dates:
    unchanged when no row was processed, else the timestamp of a processed
    row that no processed row exceeds, strictly newer than the old one. *)
Lemma flatten_watermark_is_maximum (data : list row) (w : cell) :
  timestampsValid Date_parse (drop 1 data) -> watermarkValid Date_parse w ->
  let eligible :=
    List.filter (processed Date_parse (lastDateOf Date_parse w)) (drop 1 data) in
  let w' := snd (flatten Date_parse data w) in
  (eligible = [] -> w' = w)
  /\ (eligible <> [] ->
      w' ∈ map timestampOf eligible
      /\ exists l cr,
           lastDateOf Date_parse w = Some l
           /\ getTime Date_parse w' = Some cr
           /\ l < cr
           /\ Forall (fun r => exists c,
                        getTime Date_parse (timestampOf r) = Some c /\ c <= cr)
                     eligible).
Proof.
  intros Hvalid Hw eligible w'. subst w'. rewrite flatten_watermark. fold eligible.
  destruct (lastDateOf_valid w Hw) as (l & Hl & Hwl).
  assert (Hel : Forall (fun r => truthy (timestampOf r) = true
                          /\ exists c, getTime Date_parse (timestampOf r) = Some c
                                       /\ l < c) eligible).
  { apply Forall_forall. intros r Hr. subst eligible.
    apply list_elem_of_In, filter_In in Hr as [Hin Hp]. rewrite Hl in Hp.
    apply processed_inv in Hp as (Hlen & Ht & Hle). split; [assumption|].
    destruct (Hvalid r) as [c Hc]; [apply list_elem_of_In| |  |]; try assumption.
    exists c. split; [assumption|]. rewrite Hc in Hle. cbn [le] in Hle.
    apply Z.leb_gt in Hle. exact Hle. }
  clearbody eligible. split.
  - intros ->. reflexivity.
  - intros Hne. destruct eligible as [|r1 rest]; [congruence|]. clear Hne.
    apply Forall_cons in Hel as [[Ht1 (c1 & Hc1 & Hlt1)] Hrest].
    cbn [map fold_left].
    assert (Hadv : advance Date_parse w (timestampOf r1) = timestampOf r1).
    { unfold advance. destruct (decide (w = CStr "")) as [->|Hnb].
      - rewrite (bool_decide_eq_true_2 _ eq_refl), orb_true_r. reflexivity.
      - rewrite Hc1, (Hwl Hnb). cbn [gt].
        replace (l <? c1) with true by (symmetry; apply Z.ltb_lt; exact Hlt1).
        reflexivity. }
    rewrite Hadv.
    destruct (advance_fold_max (map timestampOf rest) (timestampOf r1) c1)
      as (cr & Hcr & Hle & _ & Hall & Hin).
    + apply truthy_not_blank. exact Ht1.
    + exact Hc1.
    + apply Forall_map. eapply Forall_impl; [exact Hrest|].
      intros r [Ht (c & Hc & _)]. split; [apply truthy_not_blank; exact Ht|].
      exists c. exact Hc.
    + split.
      * destruct Hin as [[-> _] | Hin]; [left | right; exact Hin].
      * exists l, cr. repeat split; try assumption; try lia.
        constructor; [exists c1; split; [assumption|lia]|].
        rewrite List.Forall_map in Hall. exact Hall.
Qed.

Lemma filter_none {A : Type} (f : A -> bool) (l : list A) :
  (forall x, In x l -> f x = false) -> List.filter f l = [].
Proof.
  induction l as [|x l IH]; intros H; [reflexivity|].
  cbn [List.filter]. rewrite (H x (or_introl eq_refl)).
  apply IH. intros y Hy. apply H. right. exact Hy.
Qed.

(** A second run over the same table, from the watermark the first run
    left, processes no row when every timestamp is a date. *)
Lemma flatten_idempotent (data : list row) (w : cell) :
  timestampsValid Date_parse (drop 1 data) -> watermarkValid Date_parse w ->
  flatten Date_parse data (snd (flatten Date_parse data w))
  = ([], snd (flatten Date_parse data w)).
Proof.
  intros Hvalid Hw.
  destruct (flatten_watermark_is_maximum data w Hvalid Hw) as [Hnone Hsome].
  cbv zeta in Hnone, Hsome.
  set (w' := snd (flatten Date_parse data w)) in *.
  set (lastDate := lastDateOf Date_parse w) in *.
  assert (Hskip : List.filter (processed Date_parse (lastDateOf Date_parse w'))
                              (drop 1 data) = []).
  { destruct (List.filter (processed Date_parse lastDate) (drop 1 data))
      as [|r1 rest] eqn:Hel.
    - rewrite (Hnone eq_refl). exact Hel.
    - destruct Hsome as (Hin & l & cr & Hl & Hcr & Hlt & Hall); [discriminate|].
      assert (Ht : truthy w' = true).
      { apply list_elem_of_In, in_map_iff in Hin as (r & <- & Hr).
        rewrite <- Hel in Hr. apply filter_In in Hr as [_ Hp].
        apply processed_inv in Hp as (_ & Ht & _). exact Ht. }
      unfold lastDateOf at 1. rewrite Ht, Hcr.
      apply filter_none. intros r Hr.
      destruct (processed Date_parse lastDate r) eqn:Hp.
      + assert (Hre : In r (r1 :: rest)).
        { rewrite <- Hel. apply filter_In. split; assumption. }
        rewrite Forall_forall in Hall.
        destruct (Hall r) as (c & Hc & Hle); [apply list_elem_of_In; exact Hre|].
        apply processed_inv in Hp as (Hlen & Htr & _).
        unfold processed. destruct r as [|ts tl]; [apply andb_false_r|].
        cbn [timestampOf] in *. rewrite Hc. cbn [le].
        replace (c <=? cr) with true by (symmetry; apply Z.leb_le; exact Hle).
        rewrite Htr. apply andb_false_r.
      + rewrite Hl in Hp.
        apply (processed_later l cr); [lia | exact Hp]. }
  apply injective_projections.
  - rewrite flatten_rows, Hskip. reflexivity.
  - rewrite flatten_watermark, Hskip. reflexivity.
Qed.

Lemma advance_fold_nonblank (tss : list cell) (cur : cell) :
  cur <> CStr "" -> Forall (fun ts => ts <> CStr "") tss ->
  fold_left (advance Date_parse) tss cur <> CStr "".
Proof.
  revert cur. induction tss as [|ts tss IH]; intros cur Hcur Hall; [exact Hcur|].
  apply Forall_cons in Hall as [Hts Hall]. cbn [fold_left]. apply IH; [|exact Hall].
  unfold advance. destruct (_ || _); assumption.
Qed.

Lemma flatten_watermark_nonblank (data : list row) (w : cell) :
  w <> CStr "" -> snd (flatten Date_parse data w) <> CStr "".
Proof.
  intros Hw. rewrite flatten_watermark. apply advance_fold_nonblank; [exact Hw|].
  apply Forall_map, Forall_forall. intros r Hr.
  apply list_elem_of_In, filter_In in Hr as [_ Hp].
  apply processed_inv in Hp as (_ & Ht & _). apply truthy_not_blank. exact Ht.
Qed.

Lemma writeRows_body (t : target) (newRows : list row) :
  body (writeRows t newRows) = [] -> body t = [] /\ newRows = [].
Proof.
  unfold writeRows. destruct newRows as [|r newRows]; [intros H; split; [exact H|reflexivity]|].
  cbn [body]. intros H. apply app_eq_nil in H as [_ H].
  apply app_eq_nil in H as [_ H]. discriminate H.
Qed.

Lemma writeRows_Z1 (t : target) (newRows : list row) :
  Z1 (writeRows t newRows) = Z1 t.
Proof. unfold writeRows. destruct newRows; reflexivity. Qed.

(** The whole entry point run twice on the same table: the second run
    leaves the target as the first one left it, rows and watermark, when
    every timestamp of the table is a date. *)
Lemma flattenTransactionsAudit_idempotent (data : list row) (t : target) :
  timestampsValid Date_parse (drop 1 data) -> watermarkValid Date_parse (Z1 t) ->
  flattenTransactionsAudit Date_parse data (flattenTransactionsAudit Date_parse data t)
  = flattenTransactionsAudit Date_parse data t.
Proof.
  intros Hvalid Hw.
  pose proof (flatten_idempotent data (Z1 t) Hvalid Hw) as Hidem.
  pose proof (flatten_watermark_nonblank data (Z1 t)) as Hnb.
  destruct (length data <=? 1)%nat eqn:Hlen.
  { assert (Hskip : forall u, flattenTransactionsAudit Date_parse data u = u).
    { intros u. unfold flattenTransactionsAudit. rewrite Hlen. reflexivity. }
    rewrite !Hskip. reflexivity. }
  destruct (flatten Date_parse data (Z1 t)) as [newRows w'] eqn:Hf.
  cbn [snd] in Hidem, Hnb.
  set (t1 := if (getLastRow t =? 0)%nat then Target [headerRow] (Z1 t) else t).
  set (t2 := writeRows t1 newRows).
  set (t' := if decide (w' = Z1 t) then t2 else Target (body t2) w').
  assert (Hrun : flattenTransactionsAudit Date_parse data t = t').
  { unfold flattenTransactionsAudit. rewrite Hlen, Hf. reflexivity. }
  assert (HZ1 : Z1 t' = w').
  { subst t'. destruct (decide (w' = Z1 t)) as [->|_]; [|reflexivity].
    subst t2. rewrite writeRows_Z1. subst t1.
    destruct (getLastRow t =? 0)%nat; reflexivity. }
  assert (Hbody : body t' = body t2).
  { subst t'. destruct (decide (w' = Z1 t)); reflexivity. }
  assert (Hlast : (getLastRow t' =? 0)%nat = false).
  { apply Nat.eqb_neq. unfold getLastRow. rewrite Hbody, HZ1.
    destruct (body t2) as [|b bs] eqn:Hb2; [|cbn [length]; lia].
    subst t2. apply writeRows_body in Hb2 as [Hb1 _]. subst t1.
    destruct (getLastRow t =? 0)%nat eqn:Hg; [discriminate Hb1|].
    apply Nat.eqb_neq in Hg. unfold getLastRow in Hg. rewrite Hb1 in Hg.
    destruct (decide (Z1 t = CStr "")) as [|Hne]; [congruence|].
    destruct (decide (w' = CStr "")) as [Heq|]; [|lia].
    exfalso. exact (Hnb Hne Heq). }
  rewrite Hrun. clearbody t'.
  unfold flattenTransactionsAudit. rewrite Hlen, Hlast, HZ1, Hidem.
  cbn [writeRows]. destruct (decide (w' = w')); [reflexivity|congruence].
Qed.

End Host.

(** C1, a run that contradicts the count of 19: this source row has one
    non-empty group, and the row emitted for it has 21 values; the first
    cell of the group (the reference number) and its last (the remark) are
    among them. *)
Lemma flatten_emits_21_values_example :
  exists out,
    fst (flatten noDates [sourceHeader; sourceRow (CDate 1000)] (CStr "")) = [out]
    /\ length out = 21%nat
    /\ (length out =? 19)%nat = false
    /\ out !! 4%nat = Some (CStr "ref no.")
    /\ out !! 20%nat = Some (CStr "remark").
Proof.
  eexists. split; [vm_compute; reflexivity|]. repeat split.
Qed.


Lemma flatten_second_run_repeats_row_witness :
  noDates "n/a" = None
  /\ (let data := [sourceHeader; sourceRow (CStr "n/a")] in
      let out := staticCells (CStr "n/a") ++ filledGroup in
      let first := flattenTransactionsAudit noDates data (Target [] (CStr "")) in
      let second := flattenTransactionsAudit noDates data first in
      first = Target [headerRow; out] (CStr "n/a")
      /\ fst (flatten noDates data (Z1 first)) = [out]
      /\ second = Target [headerRow; out; out] (CStr "n/a")).
Proof.
  split; [reflexivity|].
  apply (flatten_second_run_repeats_row noDates). reflexivity.
Defined.

Lemma flatten_watermark_not_maximum_witness :
  noDates "n/a" = None
  /\ (let data := [sourceHeader; sourceRow (CStr "n/a"); sourceRow (CDate 1000)] in
      flatten noDates data (CStr "")
      = ([staticCells (CStr "n/a") ++ filledGroup;
          staticCells (CDate 1000) ++ filledGroup], CStr "n/a")
      /\ getTime noDates (snd (flatten noDates data (CStr ""))) = None
      /\ getTime noDates (CDate 1000) = Some 1000).
Proof.
  split; [reflexivity|].
  apply (flatten_watermark_not_maximum noDates). reflexivity.
Defined.

(** A table of three dated rows, out of order: the lemmas on dated tables
    apply to it. *)
Lemma datedTable_valid :
  timestampsValid noDates
    (drop 1 [sourceHeader; sourceRow (CDate 500); sourceRow (CDate 1000);
             sourceRow (CDate 700)])
  /\ watermarkValid noDates (CStr "").
Proof.
  split; [|left; reflexivity].
  intros r Hr _ _. cbn [drop] in Hr.
  repeat (apply elem_of_cons in Hr as [-> | Hr]; [eexists; reflexivity|]).
  apply elem_of_nil in Hr. contradiction.
Qed.

Example flatten_watermark_is_maximum_example :
  snd (flatten noDates
         [sourceHeader; sourceRow (CDate 500); sourceRow (CDate 1000);
          sourceRow (CDate 700)] (CStr ""))
  = CDate 1000.
Proof.
  vm_compute. reflexivity.
Qed.

Example flattenTransactionsAudit_idempotent_example :
  let data := [sourceHeader; sourceRow (CDate 500); sourceRow (CDate 1000);
               sourceRow (CDate 700)] in
  let first := flattenTransactionsAudit noDates data (Target [] (CStr "")) in
  flattenTransactionsAudit noDates data first = first
  /\ length (body first) = 4%nat /\ Z1 first = CDate 1000.
Proof.
  destruct datedTable_valid as [Hvalid Hw]. split.
  - apply (flattenTransactionsAudit_idempotent noDates _ (Target [] (CStr "")));
      assumption.
  - vm_compute. split; reflexivity.
Qed.

End FlattenFacts.

(** * Properties of the weekly snapshot mailer *)

Module WeeklyFacts.

Import Weekly.

Lemma Z_toString_nonempty (z : Z) : Z_toString z <> "".
Proof.
  unfold Z_toString, NilZero.string_of_int.
  destruct (Z.to_int z) as [d|d]; [|discriminate].
  destruct d; discriminate.
Qed.

Lemma Number_toString_nonempty (other : number -> string) (x : number) :
  (forall y, other y <> "") -> Number_toString other x <> "".
Proof.
  intros Hother. destruct x as [s|s| |s m e]; cbn [Number_toString].
  - discriminate.
  - destruct s; discriminate.
  - discriminate.
  - destruct (exactValue s m e) as [num den].
    destruct (_ && _); [apply Z_toString_nonempty | apply Hother].
Qed.

Section Host.

Variable formatDate : Z -> string.
Variable Number_toString_other : number -> string.

Lemma currentTimestampOf_nonempty (timestampCell : cell) :
  (forall t, formatDate t <> "") ->
  (forall x, Number_toString_other x <> "") ->
  truthy timestampCell = true ->
  currentTimestampOf formatDate Number_toString_other timestampCell <> "".
Proof.
  intros Hfmt Hnum Ht.
  destruct timestampCell as [|b|x|s|t]; cbn [currentTimestampOf toString].
  - discriminate Ht.
  - destruct b; discriminate.
  - apply Number_toString_nonempty. exact Hnum.
  - cbn [truthy] in Ht. apply negb_true_iff, String.eqb_neq in Ht. exact Ht.
  - apply Hfmt.
Qed.

(** C6: a send is attempted exactly when the timestamp cell is truthy (not
    empty or null, not the number 0 or NaN, not false) and its canonical
    text differs from the stored marker; the canonical text is the
    formatted date of a date-typed value and otherwise the text of the
    value: a string as it is, a number as JavaScript prints it, a boolean
    as true or false.  The marker becomes that text when the send returns,
    and stays as it was when the send throws or when no send is attempted.
    The host's formatters never return the empty text. *)
Theorem weekly_send_iff_new_timestamp (timestampCell : cell)
    (lastTimestamp : option string) (sendReturns : bool) (e : string) :
  (forall t, formatDate t <> "") ->
  (forall x, Number_toString_other x <> "") ->
  let canonical :=
    match timestampCell with
    | CDate t => formatDate t
    | CStr s => s
    | CNum x => Number_toString Number_toString_other x
    | CBool b => if b then "true" else "false"
    | CNull => ""
    end in
  let sendable :=
    match timestampCell with
    | CDate _ => true
    | CStr s => negb (String.eqb s "")
    | CNum x => negb (isNaN x || isZero x)
    | CBool b => b
    | CNull => false
    end in
  let o := sendFormattedEmail formatDate Number_toString_other
             timestampCell lastTimestamp sendReturns e in
  (attempted o = true
   <-> sendable = true /\ lastTimestamp <> Some canonical)
  /\ (attempted o = true -> sendReturns = true ->
      lastSentTicketTimestamp o = Some canonical)
  /\ (attempted o = true -> sendReturns = false ->
      lastSentTicketTimestamp o = lastTimestamp)
  /\ (attempted o = false -> lastSentTicketTimestamp o = lastTimestamp).
Proof.
  intros Hfmt Hnum canonical sendable o.
  assert (Hcan : canonical
                 = currentTimestampOf formatDate Number_toString_other timestampCell).
  { destruct timestampCell as [|[|]|x|s|t]; reflexivity. }
  assert (Hsend : sendable = truthy timestampCell).
  { destruct timestampCell as [|b|x|s|t]; reflexivity. }
  rewrite Hcan, Hsend. clear Hcan Hsend canonical sendable.
  set (canonical := currentTimestampOf formatDate Number_toString_other timestampCell).
  subst o. unfold sendFormattedEmail.
  destruct (truthy timestampCell) eqn:Ht; cbn [negb].
  - fold canonical.
    assert (Hne : String.eqb canonical "" = false).
    { apply String.eqb_neq. apply currentTimestampOf_nonempty; assumption. }
    rewrite Hne. cbn [negb andb].
    destruct (decide (Some canonical = lastTimestamp)) as [Heq|Hneq].
    + rewrite (bool_decide_eq_true_2 _ Heq). cbn [negb attempted lastSentTicketTimestamp].
      repeat split; try discriminate; try reflexivity.
      intros [_ H]. congruence.
    + rewrite (bool_decide_eq_false_2 _ Hneq). cbn [negb].
      destruct sendReturns; cbn [attempted lastSentTicketTimestamp];
        repeat split; try discriminate; try reflexivity; try congruence.
  - cbn [attempted lastSentTicketTimestamp].
    repeat split; try discriminate; try reflexivity.
    intros [H _]. discriminate H.
Qed.

End Host.

Lemma weekly_send_iff_new_timestamp_witness :
  (attempted (sendFormattedEmail (fun _ => "01-02-2024 03:04:05") (fun _ => "0.5")
                (CDate 0) None true "") = true
   <-> true = true /\ None <> Some "01-02-2024 03:04:05")
  /\ (attempted (sendFormattedEmail (fun _ => "01-02-2024 03:04:05") (fun _ => "0.5")
                   (CDate 0) None true "") = true ->
      true = true ->
      lastSentTicketTimestamp
        (sendFormattedEmail (fun _ => "01-02-2024 03:04:05") (fun _ => "0.5")
           (CDate 0) None true "")
      = Some "01-02-2024 03:04:05")
  /\ (attempted (sendFormattedEmail (fun _ => "01-02-2024 03:04:05") (fun _ => "0.5")
                   (CDate 0) None true "") = true ->
      true = false ->
      lastSentTicketTimestamp
        (sendFormattedEmail (fun _ => "01-02-2024 03:04:05") (fun _ => "0.5")
           (CDate 0) None true "")
      = None)
  /\ (attempted (sendFormattedEmail (fun _ => "01-02-2024 03:04:05") (fun _ => "0.5")
                   (CDate 0) None true "") = false ->
      lastSentTicketTimestamp
        (sendFormattedEmail (fun _ => "01-02-2024 03:04:05") (fun _ => "0.5")
           (CDate 0) None true "")
      = None).
Proof.
  apply (weekly_send_iff_new_timestamp (fun _ => "01-02-2024 03:04:05")
           (fun _ => "0.5") (CDate 0) None true "");
    intros; discriminate.
Defined.

(** C6, where the claim as first written fails: a cell that holds the
    number 0 is not empty and its text 0 differs from the marker (none is
    stored), yet no send is attempted and the marker stays unset, whatever
    the transport would do. *)
Lemma weekly_zero_cell_is_not_sent :
  isBlank (CNum (S754_zero false)) = false
  /\ currentTimestampOf (fun _ => "01-02-2024 03:04:05") (fun _ => "0.5")
       (CNum (S754_zero false)) = "0"
  /\ attempted (sendFormattedEmail (fun _ => "01-02-2024 03:04:05") (fun _ => "0.5")
                  (CNum (S754_zero false)) None true "") = false
  /\ lastSentTicketTimestamp
       (sendFormattedEmail (fun _ => "01-02-2024 03:04:05") (fun _ => "0.5")
          (CNum (S754_zero false)) None true "") = None.
Proof. repeat split. Qed.

End WeeklyFacts.

(** * Properties of the department attendance mailer *)

Module AttendanceFacts.

Import Attendance AttendanceWords.

(** ** The KPI column *)





Lemma append_nonempty (a b : string) : b <> "" -> (a ++ b)%string <> "".
Proof.
  intros Hb. destruct a as [|c a]; [exact Hb|discriminate].
Qed.

Section Render.

Variable Number_toString_other : number -> string.

Lemma kpiText_nonempty (cellValue : string) :
  kpiText Number_toString_other cellValue <> "".
Proof.
  unfold kpiText. destruct (_ || _); [discriminate|].
  apply append_nonempty. discriminate.
Qed.


End Render.

(** ** Grouping by department *)

Lemma get_set {V : Type} (o : JSObject V) (k k' : string) (v : V) :
  get (set o k v) k' = if decide (k = k') then Some v else get o k'.
Proof. unfold get, set. cbn [own]. apply lookup_insert. Qed.

Lemma ownReducer_get (acc : JSObject (list AttendanceRecord))
    (row : AttendanceRecord) (d : string) :
  get (ownReducer acc row) d
  = if decide (Department row = d /\ d <> "")
    then Some (default [] (get acc d) ++ [row])
    else get acc d.
Proof.
  unfold ownReducer.
  destruct (String.eqb (Department row) "") eqn:Hd; cbn [negb].
  - apply String.eqb_eq in Hd.
    destruct (decide _) as [[H1 H2]|_]; [congruence|reflexivity].
  - apply String.eqb_neq in Hd.
    destruct (get acc (Department row)) as [l|] eqn:Hacc.
    + rewrite Hacc, get_set.
      destruct (decide (Department row = d)) as [<-|Hne].
      * rewrite Hacc. destruct (decide _) as [_|H]; [reflexivity|].
        exfalso. apply H. split; [reflexivity|assumption].
      * destruct (decide _) as [[H _]|_]; [congruence|reflexivity].
    + rewrite get_set. rewrite (decide_True (P := Department row = Department row)) by reflexivity.
      rewrite !get_set.
      destruct (decide (Department row = d)) as [<-|Hne].
      * rewrite Hacc. destruct (decide _) as [_|H]; [reflexivity|].
        exfalso. apply H. split; [reflexivity|assumption].
      * destruct (decide _) as [[H _]|_]; [congruence|reflexivity].
Qed.

Lemma fold_ownReducer_get (rows : list AttendanceRecord)
    (acc : JSObject (list AttendanceRecord)) (d : string) :
  get (fold_left ownReducer rows acc) d
  = if decide (d <> "" /\ rowsOf d rows <> [])
    then Some (default [] (get acc d) ++ rowsOf d rows)
    else get acc d.
Proof.
  revert acc. induction rows as [|row rows IH]; intros acc.
  - cbn [fold_left]. destruct (decide _) as [[_ H]|_]; [|reflexivity].
    exfalso. apply H. reflexivity.
  - cbn [fold_left]. rewrite IH, ownReducer_get. unfold rowsOf.
    rewrite filter_cons.
    destruct (decide (Department row = d)) as [Heq|Hne].
    + destruct (decide (d = "")) as [->|Hd].
      * rewrite !decide_False by (intros [H _]; first [apply H; reflexivity | congruence]).
        rewrite decide_False by (intros [_ H]; apply H; reflexivity).
        reflexivity.
      * rewrite (decide_True (P := Department row = d /\ d <> "")) by (split; assumption).
        rewrite (decide_True (P := d <> "" /\ row :: filter _ rows <> []))
          by (split; [assumption|discriminate]).
        cbn [default].
        destruct (decide (d <> "" /\ filter (fun row0 => Department row0 = d) rows <> []))
          as [_|Hn].
        -- unfold id. rewrite <- app_assoc. reflexivity.
        -- assert (Hnil : filter (fun row0 => Department row0 = d) rows = []).
           { destruct (filter _ rows); [reflexivity|].
             exfalso. apply Hn. split; [assumption|discriminate]. }
           rewrite Hnil. reflexivity.
    + rewrite (decide_False (P := Department row = d /\ d <> "")) by (intros [H _]; congruence).
      reflexivity.
Qed.

Lemma grouping_get (rows : list AttendanceRecord) (d : string)
    (l : list AttendanceRecord) :
  get (ownGrouping rows) d = Some l
  <-> d <> "" /\ l <> [] /\ l = filter (fun row => Department row = d) rows.
Proof.
  unfold ownGrouping.
  rewrite fold_ownReducer_get. fold (rowsOf d rows).
  change (get emptyObject d) with (@None (list AttendanceRecord)). cbn [default app].
  destruct (decide _) as [[Hd Hne]|Hn].
  - split.
    + intros [= <-]. repeat split; assumption.
    + intros (_ & _ & ->). reflexivity.
  - split; [discriminate|]. intros (Hd & Hne & ->).
    exfalso. apply Hn. split; assumption.
Qed.

Lemma readProperty_own {V : Type} (o : JSObject V) (k : string) :
  inherited k = false ->
  readProperty o k = match get o k with Some v => Own v | None => Undefined end.
Proof.
  intros H. unfold readProperty, get. destruct (own o !! k); [reflexivity|].
  rewrite H. reflexivity.
Qed.

Lemma ownName_inherited (k : string) : ownName k = negb (inherited k).
Proof. reflexivity. Qed.

Lemma inherited_nonempty (k : string) : inherited k = true -> String.eqb k "" = false.
Proof.
  intros H. destruct (String.eqb k "") eqn:E; [|reflexivity].
  apply String.eqb_eq in E. subst k. discriminate H.
Qed.

(** Off the inherited names the reducer never throws. *)
Lemma groupReducer_own (acc : JSObject (list AttendanceRecord))
    (row : AttendanceRecord) :
  ownName (Department row) = true ->
  groupReducer acc row = Some (ownReducer acc row).
Proof.
  intros H. rewrite ownName_inherited in H. apply negb_true_iff in H.
  unfold groupReducer, ownReducer.
  destruct (String.eqb (Department row) ""); cbn [negb]; [reflexivity|].
  rewrite (readProperty_own acc _ H).
  destruct (get acc (Department row)) as [l|] eqn:Hacc.
  - rewrite (readProperty_own acc _ H), Hacc. reflexivity.
  - rewrite (readProperty_own _ _ H), get_set.
    rewrite (decide_True (P := Department row = Department row)) by reflexivity.
    reflexivity.
Qed.

(** On an inherited name that the object does not own, it throws. *)
Lemma groupReducer_inherited (acc : JSObject (list AttendanceRecord))
    (row : AttendanceRecord) :
  inherited (Department row) = true ->
  get acc (Department row) = None ->
  groupReducer acc row = None.
Proof.
  intros H Hacc. unfold groupReducer.
  rewrite (inherited_nonempty _ H). cbn [negb].
  unfold readProperty. unfold get in Hacc. rewrite Hacc, H, Hacc. reflexivity.
Qed.

Lemma reduce_own (rows : list AttendanceRecord)
    (acc : JSObject (list AttendanceRecord)) :
  ownNamesOnly rows = true ->
  reduce rows acc = Some (fold_left ownReducer rows acc).
Proof.
  revert acc. induction rows as [|row rows IH]; intros acc H; [reflexivity|].
  cbn [ownNamesOnly forallb] in H. apply andb_true_iff in H as [Hrow Hrows].
  cbn [reduce fold_left]. rewrite (groupReducer_own acc row Hrow). apply IH, Hrows.
Qed.

Lemma reduce_inherited (rows : list AttendanceRecord)
    (acc : JSObject (list AttendanceRecord)) :
  (forall k, inherited k = true -> get acc k = None) ->
  ownNamesOnly rows = false ->
  reduce rows acc = None.
Proof.
  revert acc. induction rows as [|row rows IH]; intros acc Hacc H; [discriminate H|].
  cbn [ownNamesOnly forallb] in H. cbn [reduce].
  destruct (ownName (Department row)) eqn:Hrow.
  - cbn [andb] in H. rewrite (groupReducer_own acc row Hrow). apply IH; [|exact H].
    intros k Hk. rewrite ownReducer_get.
    destruct (decide _) as [[Heq _]|_]; [|apply Hacc, Hk].
    rewrite ownName_inherited, Heq, Hk in Hrow. discriminate Hrow.
  - rewrite ownName_inherited in Hrow. apply negb_false_iff in Hrow.
    rewrite (groupReducer_inherited acc row Hrow (Hacc _ Hrow)). reflexivity.
Qed.

(** The grouping returns exactly when no department is an inherited name. *)
Lemma grouping_result (rows : list AttendanceRecord) :
  groupRowsByDepartment_ rows
  = if ownNamesOnly rows then Some (ownGrouping rows) else None.
Proof.
  unfold groupRowsByDepartment_, ownGrouping.
  destruct (ownNamesOnly rows) eqn:H.
  - apply reduce_own, H.
  - apply reduce_inherited; [|exact H]. intros k _. apply lookup_empty.
Qed.

Lemma grouping_Some (rows : list AttendanceRecord)
    (grouped : JSObject (list AttendanceRecord)) :
  groupRowsByDepartment_ rows = Some grouped ->
  ownNamesOnly rows = true /\ grouped = ownGrouping rows.
Proof.
  rewrite grouping_result. destruct (ownNamesOnly rows); [|discriminate].
  intros [= <-]. split; reflexivity.
Qed.


(** ** The keys of the grouping *)

Lemma created_set {V : Type} (o : JSObject V) (k k' : string) (v : V) :
  k' ∈ created (set o k v) -> k' ∈ created o \/ k' = k.
Proof.
  unfold set. cbn [created]. destruct (decide _); [left; assumption|].
  intros H. apply elem_of_app in H as [H|H]; [left; assumption|].
  apply list_elem_of_singleton in H. right. exact H.
Qed.

Lemma created_ownReducer (acc : JSObject (list AttendanceRecord))
    (row : AttendanceRecord) (k : string) :
  k ∈ created (ownReducer acc row) ->
  k ∈ created acc \/ (k = Department row /\ k <> "").
Proof.
  unfold ownReducer.
  destruct (String.eqb (Department row) "") eqn:Hd; cbn [negb]; [left; assumption|].
  apply String.eqb_neq in Hd. intros H.
  assert (Hk : forall (o : JSObject (list AttendanceRecord)) v,
               k ∈ created (set o (Department row) v) ->
               k ∈ created o \/ (k = Department row /\ k <> "")).
  { intros o v Hin. apply created_set in Hin as [Hin | ->]; [left; assumption|].
    right. split; [reflexivity|assumption]. }
  destruct (get acc (Department row)) as [l|] eqn:Hacc.
  - rewrite Hacc in H. apply Hk in H. exact H.
  - rewrite get_set, (decide_True (P := Department row = Department row)) in H
      by reflexivity.
    apply Hk in H as [H|H]; [|right; exact H]. apply Hk in H. exact H.
Qed.

Lemma created_fold_ownReducer (rows : list AttendanceRecord)
    (acc : JSObject (list AttendanceRecord)) (k : string) :
  k ∈ created (fold_left ownReducer rows acc) ->
  k ∈ created acc \/ (k <> "" /\ rowsOf k rows <> []).
Proof.
  revert acc. induction rows as [|row rows IH]; intros acc H.
  - left. exact H.
  - cbn [fold_left] in H. unfold rowsOf. rewrite filter_cons.
    apply IH in H as [H | [Hk Hne]].
    + apply created_ownReducer in H as [H | [-> Hk]]; [left; assumption|].
      right. split; [assumption|].
      rewrite decide_True by reflexivity. discriminate.
    + right. split; [assumption|]. destruct (decide _); [discriminate|exact Hne].
Qed.

Lemma elem_of_insertIndex (x y : Z * string) (l : list (Z * string)) :
  y ∈ insertIndex x l -> y = x \/ y ∈ l.
Proof.
  induction l as [|z l IH]; cbn [insertIndex]; intros H.
  - apply list_elem_of_singleton in H. left. exact H.
  - destruct (fst x <=? fst z).
    + apply elem_of_cons in H. exact H.
    + apply elem_of_cons in H as [-> | H].
      * right. apply elem_of_cons. left. reflexivity.
      * apply IH in H as [-> | H]; [left; reflexivity|].
        right. apply elem_of_cons. right. exact H.
Qed.

Lemma elem_of_sorted_indices (y : Z * string) (l : list (Z * string)) :
  y ∈ fold_right insertIndex [] l -> y ∈ l.
Proof.
  induction l as [|x l IH]; cbn [fold_right]; intros H; [exact H|].
  apply elem_of_insertIndex in H as [-> | H]; apply elem_of_cons;
    [left; reflexivity | right; apply IH; exact H].
Qed.

Lemma Object_keys_created {V : Type} (o : JSObject V) (k : string) :
  k ∈ Object_keys o -> k ∈ created o.
Proof.
  unfold Object_keys. intros H. apply elem_of_app in H as [H|H].
  - apply list_elem_of_In, in_map_iff in H as ([i k'] & <- & H).
    apply list_elem_of_In, elem_of_sorted_indices, list_elem_of_omap in H
      as (k0 & Hk0 & Hidx).
    destruct (arrayIndex k0); [|discriminate]. injection Hidx as _ <-. exact Hk0.
  - apply list_elem_of_In, filter_In in H as [H _]. apply list_elem_of_In. exact H.
Qed.

(** Every key of the grouping is a department that has records. *)
Lemma grouping_keys_have_rows (rows : list AttendanceRecord) (d : string) :
  d ∈ Object_keys (ownGrouping rows) ->
  exists l, get (ownGrouping rows) d = Some l /\ l <> [].
Proof.
  intros H. apply Object_keys_created in H. unfold ownGrouping in *.
  apply created_fold_ownReducer in H as [H | [Hd Hne]].
  - apply elem_of_nil in H. contradiction.
  - exists (rowsOf d rows). rewrite fold_ownReducer_get.
    rewrite decide_True by (split; assumption). split; [reflexivity|assumption].
Qed.

(** ** The loop over the departments *)

Section Transport.

Variable trySend : string -> string -> list AttendanceRecord -> bool.

Lemma departmentStep_counts (g : JSObject (list AttendanceRecord))
    (emails : gmap string string) (st : summary) (d : string)
    (rows : list AttendanceRecord) :
  get g d = Some rows -> rows <> [] ->
  exists st',
    departmentStep trySend g emails st d = Some st'
    /\ departmentsProcessed st' = S (departmentsProcessed st)
    /\ departmentsSkippedNoData st' = departmentsSkippedNoData st.
Proof.
  intros Hg Hne. unfold departmentStep. rewrite Hg. cbn [mbind option_bind].
  destruct rows as [|r rows]; [congruence|]. cbn [length Nat.eqb].
  destruct (emails !! d) as [to_|]; [|eexists; repeat split].
  destruct (_ || _); [eexists; repeat split|].
  destruct (trySend d to_ (r :: rows)); eexists; repeat split.
Qed.

Lemma departmentLoop_counts (g : JSObject (list AttendanceRecord))
    (emails : gmap string string) (departments : list string) (st : summary) :
  (forall d, d ∈ departments -> exists l, get g d = Some l /\ l <> []) ->
  exists s,
    departmentLoop trySend g emails st departments = Some s
    /\ departmentsProcessed s = (departmentsProcessed st + length departments)%nat
    /\ departmentsSkippedNoData s = departmentsSkippedNoData st.
Proof.
  revert st. induction departments as [|d ds IH]; intros st Hkeys.
  - exists st. cbn [departmentLoop length]. repeat split. lia.
  - destruct (Hkeys d) as (l & Hl & Hne); [apply elem_of_cons; left; reflexivity|].
    destruct (departmentStep_counts g emails st d l Hl Hne) as (st' & Hstep & Hp & Hn).
    destruct (IH st') as (s & Hloop & Hp' & Hn').
    { intros d' Hd'. apply Hkeys. apply elem_of_cons. right. exact Hd'. }
    exists s. cbn [departmentLoop]. rewrite Hstep. cbn [mbind option_bind].
    rewrite Hloop. repeat split; [|congruence]. rewrite Hp', Hp. cbn [length]. lia.
Qed.


Lemma run_completes (attendanceData : list AttendanceRecord)
    (emails : gmap string string) (grouped : JSObject (list AttendanceRecord)) :
  attendanceData <> [] ->
  groupRowsByDepartment_ attendanceData = Some grouped ->
  exists s,
    sendAttendancePerDepartment trySend attendanceData emails = Completed s
    /\ departmentsProcessed s = length (Object_keys grouped)
    /\ departmentsSkippedNoData s = 0%nat.
Proof.
  intros Hne Hg. unfold sendAttendancePerDepartment.
  destruct attendanceData as [|r rows]; [congruence|]. cbn [length Nat.eqb].
  rewrite Hg. apply grouping_Some in Hg as [_ ->].
  destruct (departmentLoop_counts (ownGrouping (r :: rows)) emails
              (Object_keys (ownGrouping (r :: rows))) summary0)
    as (s & Hloop & Hp & Hn).
  { intros d Hd. apply grouping_keys_have_rows. exact Hd. }
  exists s. rewrite Hloop. repeat split; assumption.
Qed.


End Transport.

(** C10: every key of the grouping holds at least one record, so the loop
    never takes its no-data branch: a run ends with the no-data alert, or
    in the outer catch because the grouping threw (then no count exists),
    or it completes and reports zero departments skipped for want of
    data. *)
Theorem skipped_no_data_is_zero :
  (forall rows grouped d l,
     groupRowsByDepartment_ rows = Some grouped ->
     get grouped d = Some l -> l <> [])
  /\ (forall rows grouped d,
        groupRowsByDepartment_ rows = Some grouped ->
        d ∈ Object_keys grouped ->
        exists l, get grouped d = Some l /\ (length l =? 0)%nat = false)
  /\ (forall trySend attendanceData emails,
        (attendanceData = []
         /\ sendAttendancePerDepartment trySend attendanceData emails
            = NoAttendanceData)
        \/ (groupRowsByDepartment_ attendanceData = None
            /\ sendAttendancePerDepartment trySend attendanceData emails
               = FatalError)
        \/ exists s,
             sendAttendancePerDepartment trySend attendanceData emails = Completed s
             /\ departmentsSkippedNoData s = 0%nat).
Proof.
  split; [|split].
  - intros rows grouped d l Hg H. apply grouping_Some in Hg as [_ ->].
    apply grouping_get in H. tauto.
  - intros rows grouped d Hg Hd. apply grouping_Some in Hg as [_ ->].
    destruct (grouping_keys_have_rows rows d Hd) as (l & Hl & Hne).
    exists l. split; [exact Hl|]. destruct l; [congruence|reflexivity].
  - intros trySend attendanceData emails.
    destruct attendanceData as [|r rows]; [left; split; reflexivity|]. right.
    destruct (groupRowsByDepartment_ (r :: rows)) as [grouped|] eqn:Hg.
    + right.
      destruct (run_completes trySend (r :: rows) emails grouped) as (s & Hrun & _ & Hn);
        [discriminate|exact Hg|].
      exists s. split; assumption.
    + left. split; [reflexivity|]. unfold sendAttendancePerDepartment.
      cbn [length Nat.eqb]. rewrite Hg. reflexivity.
Qed.


End AttendanceFacts.

(** * The file written by [toCsvBlob_], read back *)

Module CsvFacts.

Import Attendance Csv.

Local Open Scope string_scope.

#[local] Arguments String.append !_ _ /.

(** C2, at a failing input: the name of this record is the text AJ between
    two double quotes.  It holds no comma and no line feed, so the writer
    leaves it bare; a standard reader takes the quotes for the enclosure of
    the field and returns AJ, which is not the value written. *)
Theorem csv_loses_quotes_of_bare_value :
  exists blob,
    toCsvBlob_ [quoteRecord] "Attendance.csv" = Some blob
    /\ parse (content blob)
       = Some [recordKeys; ["4.Finance"; "AJ"; "E1"; ""; ""; ""; ""; ""; "0.95"]]
    /\ nth 1 (recordValues quoteRecord) "" = quotedName
    /\ String.eqb quotedName "AJ" = false.
Proof.
  eexists. split; [reflexivity|]. repeat split.
Qed.

(** ** Values the writer does restore *)

Lemma str_app_assoc (a b c : string) : (a ++ b) ++ c = a ++ (b ++ c).
Proof.
  induction a as [|x a IH]; [reflexivity|].
  cbn [append]. f_equal. exact IH.
Qed.

Lemma str_app_nil_r (a : string) : a ++ "" = a.
Proof.
  induction a as [|x a IH]; [reflexivity|].
  cbn [append]. f_equal. exact IH.
Qed.

Lemma bare_cons (c : ascii) (v : string) :
  bare (String c v) = true ->
  Ascii.eqb c DQ = false /\ Ascii.eqb c COMMA = false /\ Ascii.eqb c LF = false
  /\ bare v = true.
Proof.
  unfold bare. intros H.
  apply andb_true_iff in H as [H Hl]. apply andb_true_iff in H as [Hq Hc].
  apply negb_true_iff in Hq, Hc, Hl. cbn [includes] in Hq, Hc, Hl.
  apply orb_false_iff in Hq as [Hq Hq'], Hc as [Hc Hc'], Hl as [Hl Hl'].
  rewrite Hq', Hc', Hl'. repeat split; assumption.
Qed.

Lemma parse_separator (st : state) (sep : ascii) (field : string)
    (fields : list string) (rows : list (list string)) (rest : string) :
  isSeparator sep -> st = Unquoted \/ st = QuoteInQuoted ->
  parseFrom st field fields rows (String sep rest)
  = afterField sep field fields rows rest.
Proof.
  intros [-> | ->] [-> | ->]; reflexivity.
Qed.

Lemma parse_bare_run (v field : string) (sep : ascii) (fields : list string)
    (rows : list (list string)) (rest : string) :
  bare v = true -> isSeparator sep ->
  parseFrom Unquoted field fields rows (v ++ String sep rest)
  = afterField sep (field ++ v) fields rows rest.
Proof.
  revert field. induction v as [|c v IH]; intros field Hbare Hsep.
  - rewrite str_app_nil_r. apply parse_separator; [assumption|left; reflexivity].
  - apply bare_cons in Hbare as (Hq & Hc & Hl & Hbare).
    cbn [append parseFrom]. rewrite Hq, Hc, Hl. rewrite IH by assumption.
    unfold snoc. rewrite str_app_assoc. reflexivity.
Qed.

Lemma parse_bare_field (v : string) (sep : ascii) (fields : list string)
    (rows : list (list string)) (rest : string) :
  bare v = true -> isSeparator sep ->
  parseFrom FieldStart "" fields rows (v ++ String sep rest)
  = afterField sep v fields rows rest.
Proof.
  intros Hbare Hsep. destruct v as [|c v].
  - destruct Hsep as [-> | ->]; reflexivity.
  - apply bare_cons in Hbare as (Hq & Hc & Hl & Hbare).
    cbn [append parseFrom]. rewrite Hq, Hc, Hl.
    apply (parse_bare_run v (String c "")); assumption.
Qed.

Lemma parse_quoted_run (v field : string) (sep : ascii) (fields : list string)
    (rows : list (list string)) (rest : string) :
  isSeparator sep ->
  parseFrom Quoted field fields rows
            (doubleQuotes v ++ String DQ (String sep rest))
  = afterField sep (field ++ v) fields rows rest.
Proof.
  intros Hsep. revert field. induction v as [|c v IH]; intros field.
  - rewrite str_app_nil_r. destruct Hsep as [-> | ->]; reflexivity.
  - cbn [doubleQuotes]. destruct (Ascii.eqb c DQ) eqn:Hq.
    + apply Ascii.eqb_eq in Hq. subst c. cbn [append parseFrom].
      change (Ascii.eqb DQ DQ) with true. cbn iota.
      rewrite IH. unfold snoc. rewrite str_app_assoc. reflexivity.
    + cbn [append parseFrom]. rewrite Hq. rewrite IH.
      unfold snoc. rewrite str_app_assoc. reflexivity.
Qed.

(** One field as written, read back. *)
Lemma parse_csvValue (v : string) (sep : ascii) (fields : list string)
    (rows : list (list string)) (rest : string) :
  restorable v = true -> isSeparator sep ->
  parseFrom FieldStart "" fields rows (csvValue v ++ String sep rest)
  = afterField sep v fields rows rest.
Proof.
  intros Hv Hsep. unfold csvValue.
  destruct (includes COMMA v || includes LF v) eqn:Hquote.
  - cbn [append parseFrom]. change (Ascii.eqb DQ DQ) with true. cbn iota.
    rewrite str_app_assoc. cbn [append].
    apply (parse_quoted_run v ""). exact Hsep.
  - apply parse_bare_field; [|exact Hsep].
    unfold restorable in Hv. unfold bare.
    apply orb_false_iff in Hquote as [Hc Hl]. rewrite Hc, Hl in *.
    rewrite !orb_false_r in Hv. rewrite Hv. reflexivity.
Qed.

(** One line as written, read back. *)
Lemma parse_csvLine (values : list string) (fields : list string)
    (rows : list (list string)) (rest : string) :
  values <> [] -> forallb restorable values = true ->
  parseFrom FieldStart "" fields rows (csvLine (map csvValue values) ++ rest)
  = parseFrom FieldStart "" [] (rows ++ [fields ++ values])%list rest.
Proof.
  unfold csvLine. revert fields.
  induction values as [|v values IH]; intros fields Hne Hall; [congruence|].
  cbn [forallb] in Hall. apply andb_true_iff in Hall as [Hv Hall].
  destruct values as [|v' values].
  - cbn [map join]. rewrite str_app_assoc. cbn [append].
    rewrite parse_csvValue by (try assumption; right; reflexivity).
    reflexivity.
  - change (join "," (map csvValue (v :: v' :: values)))
      with (csvValue v ++ "," ++ join "," (map csvValue (v' :: values))).
    rewrite !str_app_assoc. cbn [append].
    rewrite parse_csvValue by (try assumption; left; reflexivity).
    unfold afterField. change (Ascii.eqb COMMA COMMA) with true. cbn iota.
    specialize (IH (fields ++ [v])%list ltac:(discriminate) Hall).
    rewrite !str_app_assoc in IH. cbn [append] in IH. rewrite IH.
    rewrite <- app_assoc. reflexivity.
Qed.

Lemma parse_csvLines (lines : list (list string)) (rows : list (list string)) :
  Forall (fun values => values <> [] /\ forallb restorable values = true) lines ->
  parseFrom FieldStart "" [] rows
            (fold_right (fun values text => csvLine (map csvValue values) ++ text)
                        "" lines)
  = Some (rows ++ lines)%list.
Proof.
  revert rows. induction lines as [|values lines IH]; intros rows Hall.
  - cbn. rewrite app_nil_r. reflexivity.
  - apply Forall_cons in Hall as [[Hne Hv] Hall]. cbn [fold_right].
    rewrite parse_csvLine by assumption. rewrite IH by assumption.
    rewrite <- app_assoc. reflexivity.
Qed.

Lemma csvContent_fold (rows : list AttendanceRecord) (start : string) :
  fold_left
    (fun (csvContent : string) row =>
       csvContent
       ++ csvLine (map (fun header =>
                          csvValue match getField row header with
                                   | Some v => v
                                   | None => ""
                                   end) recordKeys))
    rows start
  = start ++ fold_right (fun values text => csvLine (map csvValue values) ++ text)
                        "" (map recordValues rows).
Proof.
  revert start. induction rows as [|row rows IH]; intros start.
  - cbn. rewrite str_app_nil_r. reflexivity.
  - cbn [fold_left map fold_right]. rewrite IH, str_app_assoc. reflexivity.
Qed.

(** The round trip on the values the writer handles: when every value
    that holds a double quote also holds a comma or a line feed, a standard
    reader returns the header row and the values of every record. *)
Lemma csv_round_trip_restorable (rows : list AttendanceRecord) (name : string) :
  rows <> [] ->
  Forall (fun row => forallb restorable (recordValues row) = true) rows ->
  exists blob,
    toCsvBlob_ rows name = Some blob
    /\ parse (content blob) = Some (recordKeys :: map recordValues rows).
Proof.
  intros Hne Hall. destruct rows as [|first rows]; [congruence|].
  eexists. split; [reflexivity|]. cbn [content]. rewrite csvContent_fold.
  unfold parse.
  change (csvLine recordKeys) with (csvLine (map csvValue recordKeys)).
  rewrite parse_csvLine; [|discriminate|reflexivity].
  rewrite parse_csvLines; [reflexivity|].
  apply Forall_map. eapply Forall_impl; [exact Hall|].
  intros row Hrow. split; [discriminate|exact Hrow].
Qed.

(** Values with a comma, with a line feed, and with quotes next to a comma
    come back as they were. *)
Example csv_round_trip_example :
  let nameWithQuotes :=
    String DQ ("Ann" ++ String DQ ", Lee") in
  let rows :=
    [ Rec "4.Finance" "Lee, Ann" "E1" "" "" "1" "" "0" "0.95";
      Rec "3. M_BI" nameWithQuotes "E2" ("a" ++ String LF "b") "" "" "" "" "1" ] in
  exists blob,
    toCsvBlob_ rows "Attendance.csv" = Some blob
    /\ parse (content blob) = Some (recordKeys :: map recordValues rows).
Proof.
  cbv zeta. apply csv_round_trip_restorable; [discriminate|].
  repeat constructor.
Qed.

End CsvFacts.

(** * More on the flattening transform *)

Module FlattenRuns.

Import Flatten FlattenChecks FlattenFacts.

Section Host.

Variable Date_parse : string -> time.

Lemma hasTime_is_Some (c : cell) :
  hasTime Date_parse c = true -> is_Some (getTime Date_parse c).
Proof.
  unfold hasTime. destruct (getTime Date_parse c) as [t|]; [|discriminate].
  intros _. exists t. reflexivity.
Qed.

Lemma datedTable_timestampsValid (data : list row) :
  datedTable Date_parse data = true -> timestampsValid Date_parse (drop 1 data).
Proof.
  unfold datedTable. intros H r Hr Hlen Ht.
  rewrite forallb_forall in H. specialize (H r (proj1 (list_elem_of_In _ _) Hr)).
  unfold datedRow in H. rewrite Ht in H.
  replace (length r <? EXPECTED_TOTAL_COLS)%nat with false in H
    by (symmetry; apply Nat.ltb_ge; exact Hlen).
  cbn [negb orb] in H. apply hasTime_is_Some. exact H.
Qed.

Lemma datedWatermark_watermarkValid (w : cell) :
  datedWatermark Date_parse w = true -> watermarkValid Date_parse w.
Proof.
  unfold datedWatermark. intros H. apply orb_true_iff in H as [H|H].
  - left. apply bool_decide_eq_true in H. exact H.
  - right. apply hasTime_is_Some. exact H.
Qed.

Lemma flatten_short (data : list row) (w : cell) :
  (length data <=? 1)%nat = true -> flatten Date_parse data w = ([], w).
Proof.
  intros H. apply Nat.leb_le in H. unfold flatten.
  destruct data as [|h [|r data]]; cbn [drop length] in *; [reflexivity|reflexivity|lia].
Qed.

(** The watermark a run leaves in Z1 is the one the loop ends with. *)
Lemma Z1_after_run (data : list row) (t : target) :
  Z1 (flattenTransactionsAudit Date_parse data t)
  = snd (flatten Date_parse data (Z1 t)).
Proof.
  unfold flattenTransactionsAudit.
  destruct (length data <=? 1)%nat eqn:Hlen.
  - rewrite flatten_short by exact Hlen. reflexivity.
  - destruct (flatten Date_parse data (Z1 t)) as [newRows w'].
    destruct (decide (w' = Z1 t)) as [->|_]; [|reflexivity].
    rewrite writeRows_Z1. destruct (getLastRow t =? 0)%nat; reflexivity.
Qed.

(** The rows a run leaves in the sheet. *)
Lemma body_after_run (data : list row) (t : target) :
  (length data <=? 1)%nat = false ->
  body (flattenTransactionsAudit Date_parse data t)
  = body (writeRows (if (getLastRow t =? 0)%nat
                     then Target [headerRow] (Z1 t) else t)
                    (fst (flatten Date_parse data (Z1 t)))).
Proof.
  intros Hlen. unfold flattenTransactionsAudit. rewrite Hlen.
  destruct (flatten Date_parse data (Z1 t)) as [newRows w'].
  destruct (decide (w' = Z1 t)); reflexivity.
Qed.

(** A run twice over the same table of dated rows: the second run emits no
    row and leaves the target, rows and watermark, as the first run left
    it. *)
Theorem second_run_changes_nothing (data : list row) (t : target) :
  datedTable Date_parse data = true ->
  datedWatermark Date_parse (Z1 t) = true ->
  let first := flattenTransactionsAudit Date_parse data t in
  fst (flatten Date_parse data (Z1 first)) = []
  /\ flattenTransactionsAudit Date_parse data first = first.
Proof.
  intros Hdata Hw first. subst first.
  apply datedTable_timestampsValid in Hdata.
  apply datedWatermark_watermarkValid in Hw. split.
  - rewrite Z1_after_run, flatten_idempotent by assumption. reflexivity.
  - apply flattenTransactionsAudit_idempotent; assumption.
Qed.

(** The watermark after a run over a table of dated rows: unchanged when
    no row was processed; otherwise the timestamp of a processed row,
    strictly newer than the old watermark and not older than the timestamp
    of any processed row. *)
Theorem new_watermark_is_newest_processed (data : list row) (w : cell) :
  datedTable Date_parse data = true ->
  datedWatermark Date_parse w = true ->
  let eligible :=
    List.filter (processed Date_parse (lastDateOf Date_parse w)) (drop 1 data) in
  let w' := snd (flatten Date_parse data w) in
  (eligible = [] -> w' = w)
  /\ (eligible <> [] ->
      w' ∈ map timestampOf eligible
      /\ exists l cr,
           lastDateOf Date_parse w = Some l
           /\ getTime Date_parse w' = Some cr
           /\ l < cr
           /\ Forall (fun r => exists c,
                        getTime Date_parse (timestampOf r) = Some c /\ c <= cr)
                     eligible).
Proof.
  intros Hdata Hw. apply flatten_watermark_is_maximum.
  - apply datedTable_timestampsValid. exact Hdata.
  - apply datedWatermark_watermarkValid. exact Hw.
Qed.

Lemma fold_rowStep_app (lastDate : time) (rows1 rows2 : list row)
    (st : list row * cell) :
  fold_left (rowStep Date_parse lastDate) (rows1 ++ rows2) st
  = fold_left (rowStep Date_parse lastDate) rows2
              (fold_left (rowStep Date_parse lastDate) rows1 st).
Proof. apply fold_left_app. Qed.

(** A source row that the loop skips (too short, empty timestamp, or not
    newer than the watermark) can be taken out of the table: the rows
    emitted and the new watermark are the same without it. *)
Theorem skipped_row_changes_nothing (header : row) (before after : list row)
    (r : row) (w : cell) :
  processed Date_parse (lastDateOf Date_parse w) r = false ->
  flatten Date_parse (header :: before ++ r :: after) w
  = flatten Date_parse (header :: before ++ after) w.
Proof.
  intros Hskip. unfold flatten.
  change (drop 1 (header :: before ++ r :: after)) with (before ++ r :: after).
  change (drop 1 (header :: before ++ after)) with (before ++ after).
  rewrite !fold_rowStep_app. cbn [fold_left].
  rewrite (rowStep_skipped Date_parse _ _ r Hskip). reflexivity.
Qed.

(** What a run does to the rows of the target: the rows that were there
    stay, in place, and anything new comes after them; when the source has
    a row below its header row, an empty sheet first gets the header row
    and then the emitted rows; a sheet with rows gets the emitted rows right
    after its last row; and when the source has no row below its header
    row, the run leaves the target as it is. *)
Theorem target_rows_are_kept :
  (forall data t, exists added,
     body (flattenTransactionsAudit Date_parse data t) = body t ++ added)
  /\ (forall data,
        (1 < length data)%nat ->
        body (flattenTransactionsAudit Date_parse data (Target [] (CStr "")))
        = headerRow :: fst (flatten Date_parse data (CStr "")))
  /\ (forall data t,
        body t <> [] ->
        body (flattenTransactionsAudit Date_parse data t)
        = body t ++ fst (flatten Date_parse data (Z1 t)))
  /\ (forall data t,
        (length data <= 1)%nat ->
        flattenTransactionsAudit Date_parse data t = t).
Proof.
  assert (Hwrite : forall t newRows, body t <> [] ->
            body (writeRows t newRows) = body t ++ newRows).
  { intros t newRows Hne. unfold writeRows, getLastRow.
    destruct newRows as [|r newRows]; [rewrite app_nil_r; reflexivity|].
    cbn [body]. destruct (body t) as [|b bs]; [congruence|].
    rewrite Nat.sub_diag. reflexivity. }
  split; [|split; [|split]]; cycle 3.
  { intros data t Hlen. unfold flattenTransactionsAudit.
    rewrite (proj2 (Nat.leb_le _ _) Hlen). reflexivity. }
  - intros data t. destruct (length data <=? 1)%nat eqn:Hlen.
    { exists []. unfold flattenTransactionsAudit. rewrite Hlen, app_nil_r. reflexivity. }
    rewrite body_after_run by exact Hlen.
    destruct (getLastRow t =? 0)%nat eqn:Hlast.
    + apply Nat.eqb_eq in Hlast. unfold getLastRow in Hlast.
      destruct (body t) as [|b bs] eqn:Hb; [|cbn [length] in Hlast; lia].
      eexists. cbn [app]. reflexivity.
    + unfold writeRows.
      destruct (fst (flatten Date_parse data (Z1 t))) as [|r newRows].
      * exists []. rewrite app_nil_r. reflexivity.
      * eexists. cbn [body]. reflexivity.
  - intros data Hlen.
    rewrite body_after_run by (apply Nat.leb_gt; exact Hlen).
    cbn [getLastRow body Z1]. rewrite decide_True by reflexivity.
    cbn [Nat.eqb]. rewrite Hwrite by discriminate. reflexivity.
  - intros data t Hne. destruct (length data <=? 1)%nat eqn:Hlen.
    { rewrite flatten_short by exact Hlen. unfold flattenTransactionsAudit.
      rewrite Hlen, app_nil_r. reflexivity. }
    rewrite body_after_run by exact Hlen.
    replace (getLastRow t =? 0)%nat with false.
    + apply Hwrite. exact Hne.
    + symmetry. apply Nat.eqb_neq. unfold getLastRow.
      destruct (body t) as [|b bs]; [congruence|]. cbn [length]. lia.
Qed.

(** No emitted row is blank past its static cells: each one carries at
    least one audit cell that is neither empty nor null. *)
Theorem emitted_rows_carry_audit_data (data : list row) (w : cell) :
  Forall (fun out =>
            existsb (fun c => negb (isBlank c)) (drop STATIC_COLS out) = true)
         (fst (flatten Date_parse data w)).
Proof.
  rewrite flatten_rows. apply Forall_concat, List.Forall_map, Forall_forall.
  intros src Hsrc. apply list_elem_of_In, filter_In in Hsrc as [_ Hp].
  apply processed_length in Hp.
  rewrite emittedBy_groups. apply Forall_concat, List.Forall_map, Forall_forall.
  intros group _. unfold groupOutput.
  destruct (forallb isBlank (auditGroupData src group)) eqn:Hblank; constructor;
    [|constructor].
  rewrite drop_app_length'.
  - clear -Hblank. induction (auditGroupData src group) as [|c l IH];
      [discriminate|].
    cbn [forallb existsb] in *. destruct (isBlank c); cbn [negb andb orb] in *;
      [apply IH; exact Hblank | reflexivity].
  - rewrite length_take. unfold EXPECTED_TOTAL_COLS, STATIC_COLS in *. lia.
Qed.

End Host.

Lemma second_run_changes_nothing_witness :
  datedTable noDates datedRows = true
  /\ datedWatermark noDates (CStr "") = true
  /\ (let first := flattenTransactionsAudit noDates datedRows (Target [] (CStr "")) in
      fst (flatten noDates datedRows (Z1 first)) = []
      /\ flattenTransactionsAudit noDates datedRows first = first).
Proof.
  split; [reflexivity|]. split; [reflexivity|].
  apply (second_run_changes_nothing noDates datedRows (Target [] (CStr "")));
    reflexivity.
Defined.

Lemma new_watermark_is_newest_processed_witness :
  datedTable noDates datedRows = true
  /\ datedWatermark noDates (CDate 600) = true
  /\ (let eligible :=
        List.filter (processed noDates (lastDateOf noDates (CDate 600)))
                    (drop 1 datedRows) in
      let w' := snd (flatten noDates datedRows (CDate 600)) in
      (eligible = [] -> w' = CDate 600)
      /\ (eligible <> [] ->
          w' ∈ map timestampOf eligible
          /\ exists l cr,
               lastDateOf noDates (CDate 600) = Some l
               /\ getTime noDates w' = Some cr
               /\ l < cr
               /\ Forall (fun r => exists c,
                            getTime noDates (timestampOf r) = Some c /\ c <= cr)
                         eligible)).
Proof.
  split; [reflexivity|]. split; [reflexivity|].
  apply (new_watermark_is_newest_processed noDates datedRows (CDate 600));
    reflexivity.
Defined.

Lemma skipped_row_changes_nothing_witness :
  processed noDates (lastDateOf noDates (CDate 600)) (sourceRow (CDate 500)) = false
  /\ flatten noDates
       (sourceHeader :: [sourceRow (CDate 1000)] ++ sourceRow (CDate 500) :: [sourceRow (CDate 700)])
       (CDate 600)
     = flatten noDates
         (sourceHeader :: [sourceRow (CDate 1000)] ++ [sourceRow (CDate 700)])
         (CDate 600).
Proof.
  split; [reflexivity|].
  apply (skipped_row_changes_nothing noDates sourceHeader [sourceRow (CDate 1000)]
           [sourceRow (CDate 700)] (sourceRow (CDate 500)) (CDate 600)).
  reflexivity.
Defined.

End FlattenRuns.

(** * More on the weekly snapshot mailer *)

Module WeeklyRuns.

Import Weekly.

(** After a run whose send returns, a second run on the same timestamp
    cell attempts no send and leaves the marker alone, whatever the
    transport would do: one email per timestamp. *)
Theorem weekly_second_run_sends_nothing (formatDate : Z -> string)
    (other : number -> string) (timestampCell : cell)
    (lastTimestamp : option string) (e1 e2 : string) (sendReturns2 : bool) :
  let first := sendFormattedEmail formatDate other timestampCell lastTimestamp true e1 in
  let second := sendFormattedEmail formatDate other timestampCell
                  (lastSentTicketTimestamp first) sendReturns2 e2 in
  attempted second = false
  /\ lastSentTicketTimestamp second = lastSentTicketTimestamp first.
Proof.
  cbv zeta. unfold sendFormattedEmail.
  destruct (truthy timestampCell); cbn [negb]; [|split; reflexivity].
  set (cur := currentTimestampOf formatDate other timestampCell).
  destruct (String.eqb cur ""); cbn [negb andb]; [split; reflexivity|].
  destruct (decide (Some cur = lastTimestamp)) as [Heq|Hne].
  - rewrite (bool_decide_eq_true_2 _ Heq). cbn [negb lastSentTicketTimestamp].
    rewrite (bool_decide_eq_true_2 _ Heq). split; reflexivity.
  - rewrite (bool_decide_eq_false_2 _ Hne). cbn [negb lastSentTicketTimestamp].
    rewrite (bool_decide_eq_true_2 (Some cur = Some cur) eq_refl). split; reflexivity.
Qed.

End WeeklyRuns.

(** * More on the department attendance mailer *)

Module GroupingKeys.

Import Attendance AttendanceWords AttendanceFacts.

Lemma keysMatch_set {V : Type} (o : JSObject V) (k : string) (v : V) :
  keysMatch o -> keysMatch (set o k v).
Proof.
  unfold keysMatch. intros Hwf k'. rewrite get_set. unfold set. cbn [created].
  destruct (decide (k = k')) as [<-|Hne].
  - split; [intros _; eexists; reflexivity|]. intros _.
    destruct (decide (is_Some (own o !! k))) as [Hs|Hn].
    + apply Hwf. exact Hs.
    + apply elem_of_app. right. apply list_elem_of_singleton. reflexivity.
  - rewrite <- Hwf.
    destruct (decide (is_Some (own o !! k))); [reflexivity|].
    rewrite elem_of_app, list_elem_of_singleton. split; [|left; assumption].
    intros [H|H]; [exact H|congruence].
Qed.

Lemma created_set_eq {V : Type} (o : JSObject V) (k : string) (v : V) :
  keysMatch o -> created (set o k v) = addKey (created o) k.
Proof.
  intros Hwf. unfold set, addKey. cbn [created].
  destruct (decide (is_Some (own o !! k))) as [Hs|Hn].
  - rewrite bool_decide_eq_true_2; [reflexivity|]. apply Hwf. exact Hs.
  - rewrite bool_decide_eq_false_2; [reflexivity|]. intros H. apply Hn, Hwf, H.
Qed.

Lemma addKey_present (seen : list string) (k : string) :
  k ∈ seen -> addKey seen k = seen.
Proof. intros H. unfold addKey. rewrite bool_decide_eq_true_2; [reflexivity|exact H]. Qed.

Lemma ownReducer_keys (acc : JSObject (list AttendanceRecord))
    (row : AttendanceRecord) :
  keysMatch acc ->
  keysMatch (ownReducer acc row)
  /\ created (ownReducer acc row)
     = if String.eqb (Department row) "" then created acc
       else addKey (created acc) (Department row).
Proof.
  intros Hwf. unfold ownReducer.
  destruct (String.eqb (Department row) ""); cbn [negb]; [split; [exact Hwf|reflexivity]|].
  destruct (get acc (Department row)) as [l|] eqn:Hacc.
  - rewrite Hacc. split; [apply keysMatch_set; exact Hwf|].
    apply created_set_eq. exact Hwf.
  - rewrite get_set, (decide_True (P := Department row = Department row)) by reflexivity.
    pose proof (keysMatch_set acc (Department row) [] Hwf) as Hwf1.
    split; [apply keysMatch_set; exact Hwf1|].
    rewrite (created_set_eq _ _ _ Hwf1), (created_set_eq _ _ _ Hwf).
    apply addKey_present. unfold addKey.
    destruct (bool_decide _) eqn:Hin.
    + apply bool_decide_eq_true in Hin. exact Hin.
    + apply elem_of_app. right. apply list_elem_of_singleton. reflexivity.
Qed.

Lemma fold_ownReducer_keys (rows : list AttendanceRecord)
    (acc : JSObject (list AttendanceRecord)) :
  keysMatch acc ->
  created (fold_left ownReducer rows acc)
  = fold_left addKey (departmentsOf rows) (created acc).
Proof.
  revert acc. induction rows as [|row rows IH]; intros acc Hwf; [reflexivity|].
  cbn [fold_left]. destruct (ownReducer_keys acc row Hwf) as [Hwf' Hc].
  rewrite (IH _ Hwf'), Hc. unfold departmentsOf. cbn [map List.filter].
  destruct (String.eqb (Department row) ""); reflexivity.
Qed.

Lemma created_grouping (rows : list AttendanceRecord) :
  created (ownGrouping rows) = firstSeen (departmentsOf rows).
Proof.
  unfold ownGrouping, firstSeen.
  rewrite fold_ownReducer_keys; [reflexivity|].
  intros k. unfold get. cbn [created own emptyObject].
  rewrite lookup_empty. split; [intros H; apply elem_of_nil in H; contradiction|].
  intros [x Hx]. discriminate Hx.
Qed.

Lemma fold_addKey_NoDup (ks seen : list string) :
  NoDup seen -> NoDup (fold_left addKey ks seen).
Proof.
  revert seen. induction ks as [|k ks IH]; intros seen Hseen; [exact Hseen|].
  cbn [fold_left]. apply IH. unfold addKey.
  destruct (bool_decide (k ∈ seen)) eqn:Hin; [exact Hseen|].
  apply bool_decide_eq_false in Hin. apply NoDup_app. split; [exact Hseen|].
  split; [|apply NoDup_singleton].
  intros x Hx Hx'. apply list_elem_of_singleton in Hx'. subst x. contradiction.
Qed.

Lemma fold_addKey_elem (ks seen : list string) (k : string) :
  k ∈ fold_left addKey ks seen <-> k ∈ seen \/ k ∈ ks.
Proof.
  revert seen. induction ks as [|k' ks IH]; intros seen; cbn [fold_left].
  - rewrite elem_of_nil. tauto.
  - rewrite IH, elem_of_cons. unfold addKey.
    destruct (bool_decide (k' ∈ seen)) eqn:Hin.
    + apply bool_decide_eq_true in Hin. split; [tauto|].
      intros [H | [-> | H]]; tauto.
    + rewrite elem_of_app, list_elem_of_singleton. tauto.
Qed.

(** ** [Object.keys] lists the created keys, each once *)

Lemma insertIndex_perm (x : Z * string) (l : list (Z * string)) :
  insertIndex x l ≡ₚ x :: l.
Proof.
  induction l as [|y l IH]; cbn [insertIndex]; [reflexivity|].
  destruct (fst x <=? fst y); [reflexivity|].
  rewrite IH. apply Permutation_swap.
Qed.

Lemma sorted_indices_perm (l : list (Z * string)) :
  fold_right insertIndex [] l ≡ₚ l.
Proof.
  induction l as [|x l IH]; cbn [fold_right]; [reflexivity|].
  rewrite insertIndex_perm, IH. reflexivity.
Qed.

Lemma index_keys (ks : list string) :
  map snd (omap (fun k => (fun i => (i, k)) <$> arrayIndex k) ks)
  = List.filter isArrayIndex ks.
Proof.
  induction ks as [|k ks IH]; [reflexivity|].
  simpl. unfold isArrayIndex at 1.
  destruct (arrayIndex k); simpl; [f_equal|]; exact IH.
Qed.

Lemma filter_split_perm {A : Type} (f : A -> bool) (l : list A) :
  List.filter f l ++ List.filter (fun x => negb (f x)) l ≡ₚ l.
Proof.
  induction l as [|x l IH]; [reflexivity|]. cbn [List.filter].
  destruct (f x); cbn [negb app].
  - rewrite IH. reflexivity.
  - rewrite <- Permutation_middle, IH. reflexivity.
Qed.

Lemma Object_keys_split {V : Type} (o : JSObject V) :
  Object_keys o
  = map snd (fold_right insertIndex []
               (omap (fun k => (fun i => (i, k)) <$> arrayIndex k) (created o)))
    ++ List.filter (fun k => negb (isArrayIndex k)) (created o).
Proof.
  unfold Object_keys. f_equal. apply filter_ext. intros k. unfold isArrayIndex.
  destruct (arrayIndex k) as [i|].
  - rewrite bool_decide_eq_true_2; [reflexivity|]. eexists. reflexivity.
  - rewrite bool_decide_eq_false_2; [reflexivity|]. intros [x Hx]. discriminate Hx.
Qed.

Lemma Object_keys_perm {V : Type} (o : JSObject V) :
  Object_keys o ≡ₚ created o.
Proof.
  rewrite Object_keys_split.
  rewrite (Permutation_map snd (sorted_indices_perm _)), index_keys.
  apply filter_split_perm.
Qed.

Lemma filter_no_index (ks : list string) :
  forallb (fun k => negb (isArrayIndex k)) ks = true ->
  List.filter isArrayIndex ks = []
  /\ List.filter (fun k => negb (isArrayIndex k)) ks = ks.
Proof.
  induction ks as [|k ks IH]; intros H; [split; reflexivity|].
  cbn [forallb] in H. apply andb_true_iff in H as [Hk H].
  destruct (IH H) as [IH1 IH2]. cbn [List.filter]. rewrite Hk.
  apply negb_true_iff in Hk. rewrite Hk, IH1, IH2. split; reflexivity.
Qed.

Lemma Object_keys_no_index {V : Type} (o : JSObject V) :
  forallb (fun k => negb (isArrayIndex k)) (created o) = true ->
  Object_keys o = created o.
Proof.
  intros H. rewrite Object_keys_split.
  destruct (filter_no_index _ H) as [Hidx Hrest].
  pose proof (index_keys (created o)) as Hmap. rewrite Hidx in Hmap.
  apply map_eq_nil in Hmap. rewrite Hmap, Hrest. reflexivity.
Qed.

Lemma departmentsOf_elem (rows : list AttendanceRecord) (d : string) :
  d ∈ departmentsOf rows <-> d <> "" /\ exists row, row ∈ rows /\ Department row = d.
Proof.
  unfold departmentsOf. rewrite list_elem_of_In, filter_In, in_map_iff.
  rewrite negb_true_iff, String.eqb_neq. split.
  - intros [(row & Hd & Hin) Hne]. split; [exact Hne|].
    exists row. split; [apply list_elem_of_In; exact Hin|exact Hd].
  - intros [Hne (row & Hin & Hd)]. split; [|exact Hne].
    exists row. split; [exact Hd|apply list_elem_of_In; exact Hin].
Qed.

Lemma grouping_keys_NoDup (rows : list AttendanceRecord) :
  NoDup (Object_keys (ownGrouping rows)).
Proof.
  rewrite Object_keys_perm, created_grouping.
  apply fold_addKey_NoDup. constructor.
Qed.

Lemma grouping_keys_elem (rows : list AttendanceRecord) (d : string) :
  d ∈ Object_keys (ownGrouping rows)
  <-> d <> "" /\ exists row, row ∈ rows /\ Department row = d.
Proof.
  rewrite Object_keys_perm, created_grouping. unfold firstSeen.
  rewrite fold_addKey_elem, elem_of_nil, departmentsOf_elem. tauto.
Qed.

(** For records of departments not named after a member every object
    inherits: the grouping returns, and the departments the loop walks are,
    each once, exactly the non-empty departments of the records. *)
Theorem grouping_keys_are_the_departments (rows : list AttendanceRecord) :
  ownNamesOnly rows = true ->
  exists grouped,
    groupRowsByDepartment_ rows = Some grouped
    /\ NoDup (Object_keys grouped)
    /\ forall d,
         d ∈ Object_keys grouped
         <-> d <> "" /\ exists row, row ∈ rows /\ Department row = d.
Proof.
  intros H. exists (ownGrouping rows). split; [rewrite grouping_result, H; reflexivity|].
  split; [apply grouping_keys_NoDup|].
  intros d. apply grouping_keys_elem.
Qed.

Lemma grouping_keys_are_the_departments_witness :
  ownNamesOnly sampleRecords = true
  /\ exists grouped,
       groupRowsByDepartment_ sampleRecords = Some grouped
       /\ NoDup (Object_keys grouped)
       /\ forall d,
            d ∈ Object_keys grouped
            <-> d <> "" /\ exists row, row ∈ sampleRecords /\ Department row = d.
Proof.
  split; [reflexivity|].
  apply (grouping_keys_are_the_departments sampleRecords). reflexivity.
Defined.

(** For such records, when no department name is an array index (a
    canonical number), the loop walks the departments in the order in which
    they first appear in the records. *)
Theorem grouping_keys_in_order_of_first_appearance (rows : list AttendanceRecord) :
  ownNamesOnly rows = true ->
  forallb (fun row => negb (isArrayIndex (Department row))) rows = true ->
  exists grouped,
    groupRowsByDepartment_ rows = Some grouped
    /\ Object_keys grouped = firstSeen (departmentsOf rows).
Proof.
  intros Hown H. exists (ownGrouping rows).
  split; [rewrite grouping_result, Hown; reflexivity|].
  rewrite <- created_grouping. apply Object_keys_no_index.
  rewrite created_grouping. apply forallb_forall. intros k Hk.
  apply list_elem_of_In in Hk. unfold firstSeen in Hk.
  apply fold_addKey_elem in Hk as [Hk|Hk]; [apply elem_of_nil in Hk; contradiction|].
  apply departmentsOf_elem in Hk as [_ (row & Hrow & <-)].
  rewrite forallb_forall in H. apply H, list_elem_of_In, Hrow.
Qed.

Lemma grouping_keys_in_order_of_first_appearance_witness :
  ownNamesOnly sampleRecords = true
  /\ forallb (fun row => negb (isArrayIndex (Department row))) sampleRecords = true
  /\ (exists grouped,
        groupRowsByDepartment_ sampleRecords = Some grouped
        /\ Object_keys grouped = firstSeen (departmentsOf sampleRecords))
  /\ firstSeen (departmentsOf sampleRecords)
     = ["4.Finance"; "3. M_BI"; "1.Admin & HR"].
Proof.
  split; [reflexivity|]. split; [reflexivity|]. split; [|reflexivity].
  apply grouping_keys_in_order_of_first_appearance; reflexivity.
Defined.

End GroupingKeys.

Module AttendanceRuns.

Import Attendance AttendanceWords AttendanceFacts GroupingKeys.

Lemma trim_of_empty_test (to_ : string) :
  String.eqb to_ "" || String.eqb (trim to_) "" = String.eqb (trim to_) "".
Proof.
  destruct (String.eqb to_ "") eqn:H; [|reflexivity].
  apply String.eqb_eq in H. subst to_. reflexivity.
Qed.

Section Transport.

Variable trySend : string -> string -> list AttendanceRecord -> bool.

(** One department that has records: skipped when it has no recipients,
    else one attempt, counted as sent when the attempt completes. *)
Lemma departmentStep_outcome (g : JSObject (list AttendanceRecord))
    (emails : gmap string string) (st : summary) (d : string)
    (rows : list AttendanceRecord) :
  get g d = Some rows -> rows <> [] ->
  departmentStep trySend g emails st d
  = Some (if hasRecipients emails d
          then Summary (S (departmentsProcessed st))
                       (if sendSucceeds trySend g emails d
                        then S (emailsSent st) else emailsSent st)
                       (departmentsSkippedNoData st)
                       (departmentsSkippedNoEmail st) (sendAttempts st ++ [d])
          else Summary (S (departmentsProcessed st)) (emailsSent st)
                       (departmentsSkippedNoData st)
                       (S (departmentsSkippedNoEmail st)) (sendAttempts st)).
Proof.
  intros Hg Hne. unfold departmentStep, hasRecipients, sendSucceeds.
  rewrite Hg. cbn [mbind option_bind].
  destruct rows as [|r rows]; [congruence|]. cbn [length Nat.eqb].
  destruct (emails !! d) as [to_|]; [|reflexivity].
  rewrite trim_of_empty_test.
  destruct (String.eqb (trim to_) ""); cbn [negb]; [reflexivity|].
  destruct (trySend d to_ (r :: rows)); reflexivity.
Qed.

Lemma departmentLoop_outcome (g : JSObject (list AttendanceRecord))
    (emails : gmap string string) (departments : list string) (st : summary) :
  (forall d, d ∈ departments -> exists l, get g d = Some l /\ l <> []) ->
  exists s,
    departmentLoop trySend g emails st departments = Some s
    /\ sendAttempts s
       = sendAttempts st ++ List.filter (hasRecipients emails) departments
    /\ emailsSent s
       = (emailsSent st
          + length (List.filter (sendSucceeds trySend g emails)
                                (List.filter (hasRecipients emails) departments)))%nat
    /\ departmentsSkippedNoEmail s
       = (departmentsSkippedNoEmail st
          + length (List.filter (fun d => negb (hasRecipients emails d)) departments))%nat.
Proof.
  revert st. induction departments as [|d ds IH]; intros st Hkeys.
  - exists st. cbn [departmentLoop List.filter length].
    rewrite app_nil_r. repeat split; lia.
  - destruct (Hkeys d) as (l & Hl & Hne); [apply elem_of_cons; left; reflexivity|].
    cbn [departmentLoop]. rewrite (departmentStep_outcome g emails st d l Hl Hne).
    cbn [mbind option_bind].
    assert (Hrest : forall d', d' ∈ ds -> exists l', get g d' = Some l' /\ l' <> []).
    { intros d' Hd'. apply Hkeys. apply elem_of_cons. right. exact Hd'. }
    cbn [List.filter]. destruct (hasRecipients emails d); cbn [negb].
    + match goal with
      | |- context [departmentLoop _ _ _ ?st' ds] =>
          destruct (IH st' Hrest) as (s & Hloop & Ha & He & Hn)
      end.
      exists s. split; [exact Hloop|]. cbn [sendAttempts emailsSent
        departmentsSkippedNoEmail] in Ha, He, Hn.
      split; [rewrite Ha, <- app_assoc; reflexivity|]. split; [|exact Hn].
      rewrite He. cbn [List.filter].
      destruct (sendSucceeds trySend g emails d); cbn [length]; lia.
    + match goal with
      | |- context [departmentLoop _ _ _ ?st' ds] =>
          destruct (IH st' Hrest) as (s & Hloop & Ha & He & Hn)
      end.
      exists s. split; [exact Hloop|]. cbn [sendAttempts emailsSent
        departmentsSkippedNoEmail] in Ha, He, Hn.
      split; [exact Ha|]. split; [exact He|]. rewrite Hn. cbn [length]. lia.
Qed.

Lemma filter_lengths {A : Type} (f : A -> bool) (l : list A) :
  (length (List.filter f l) + length (List.filter (fun x => negb (f x)) l))%nat
  = length l.
Proof.
  induction l as [|x l IH]; [reflexivity|]. cbn [List.filter].
  destruct (f x); cbn [negb length]; lia.
Qed.

Lemma run_outcome (row : AttendanceRecord) (rows : list AttendanceRecord)
    (emails : gmap string string) :
  ownNamesOnly (row :: rows) = true ->
  let grouped := ownGrouping (row :: rows) in
  let departments := Object_keys grouped in
  groupRowsByDepartment_ (row :: rows) = Some grouped
  /\ exists s,
    sendAttendancePerDepartment trySend (row :: rows) emails = Completed s
    /\ sendAttempts s = List.filter (hasRecipients emails) departments
    /\ emailsSent s
       = length (List.filter (sendSucceeds trySend grouped emails) (sendAttempts s))
    /\ departmentsSkippedNoEmail s
       = length (List.filter (fun d => negb (hasRecipients emails d)) departments)
    /\ departmentsProcessed s
       = (length (sendAttempts s) + departmentsSkippedNoEmail s)%nat.
Proof.
  intros Hown grouped departments.
  assert (Hg : groupRowsByDepartment_ (row :: rows) = Some grouped).
  { rewrite grouping_result, Hown. reflexivity. }
  split; [exact Hg|].
  destruct (departmentLoop_outcome grouped emails departments summary0)
    as (s & Hloop & Ha & He & Hn).
  { intros d Hd. apply grouping_keys_have_rows. exact Hd. }
  destruct (departmentLoop_counts trySend grouped emails departments summary0)
    as (s' & Hloop' & Hp & _).
  { intros d Hd. apply grouping_keys_have_rows. exact Hd. }
  rewrite Hloop in Hloop'. injection Hloop' as <-.
  cbn [sendAttempts emailsSent departmentsSkippedNoEmail departmentsProcessed
       summary0 app Nat.add] in Ha, He, Hn, Hp.
  exists s. unfold sendAttendancePerDepartment. cbn [length Nat.eqb].
  rewrite Hg. fold departments. rewrite Hloop.
  split; [reflexivity|]. split; [exact Ha|]. split; [rewrite Ha; exact He|].
  split; [exact Hn|]. rewrite Hp, Ha, Hn. symmetry. apply filter_lengths.
Qed.

(** What a run over at least one record does when no department is named
    after a member every object inherits: the grouping returns and the run
    completes; a send is attempted for exactly the departments that have
    recipients, in the order of the keys; the emails counted as sent are the
    attempts that completed; the departments without recipients are the
    ones counted as skipped; and the attempts and the skips add up to the
    departments processed. *)
Theorem run_attempts_exactly_the_departments_with_recipients
    (row : AttendanceRecord) (rows : list AttendanceRecord)
    (emails : gmap string string) :
  ownNamesOnly (row :: rows) = true ->
  exists grouped s,
    groupRowsByDepartment_ (row :: rows) = Some grouped
    /\ sendAttendancePerDepartment trySend (row :: rows) emails = Completed s
    /\ sendAttempts s = List.filter (hasRecipients emails) (Object_keys grouped)
    /\ emailsSent s
       = length (List.filter (sendSucceeds trySend grouped emails) (sendAttempts s))
    /\ departmentsSkippedNoEmail s
       = length (List.filter (fun d => negb (hasRecipients emails d))
                             (Object_keys grouped))
    /\ departmentsProcessed s
       = (length (sendAttempts s) + departmentsSkippedNoEmail s)%nat.
Proof.
  intros Hown.
  destruct (run_outcome row rows emails Hown) as (Hg & s & Hrun & Hrest).
  exists (ownGrouping (row :: rows)), s. split; [exact Hg|]. split; [exact Hrun|].
  exact Hrest.
Qed.

End Transport.

Lemma run_attempts_exactly_the_departments_with_recipients_witness :
  ownNamesOnly sampleRecords = true
  /\ exists grouped s,
       groupRowsByDepartment_ sampleRecords = Some grouped
       /\ sendAttendancePerDepartment (fun _ _ _ => true) sampleRecords
            {[ "4.Finance" := "fin@example.org" ]} = Completed s
       /\ sendAttempts s
          = List.filter (hasRecipients {[ "4.Finance" := "fin@example.org" ]})
              (Object_keys grouped)
       /\ emailsSent s
          = length (List.filter
                      (sendSucceeds (fun _ _ _ => true) grouped
                         {[ "4.Finance" := "fin@example.org" ]})
                      (sendAttempts s))
       /\ departmentsSkippedNoEmail s
          = length (List.filter
                      (fun d => negb (hasRecipients
                                        {[ "4.Finance" := "fin@example.org" ]} d))
                      (Object_keys grouped))
       /\ departmentsProcessed s
          = (length (sendAttempts s) + departmentsSkippedNoEmail s)%nat.
Proof.
  split; [reflexivity|].
  apply (run_attempts_exactly_the_departments_with_recipients
           (fun _ _ _ => true) (withDepartment "4.Finance" quoteRecord)
           (tail sampleRecords) {[ "4.Finance" := "fin@example.org" ]}).
  reflexivity.
Defined.

(** ** The cells of the table *)

(** No cell of the table is rendered empty: a blank value shows as 0, a
    blank KPI value as 0%. *)
Theorem table_cells_are_never_empty (other : number -> string) :
  (forall row header,
     String.eqb (snd (renderCell other row header)) "" = false)
  /\ (forall row header,
        String.eqb header "KPI (%)" = false ->
        getField row header = Some "" ->
        snd (renderCell other row header) = "0")
  /\ (forall row,
        KPIPercent row = "" ->
        renderCell other row "KPI (%)" = ("center", "0%")).
Proof.
  split; [|split].
  - intros row header. unfold renderCell.
    set (v := match getField row header with Some v => v | None => "" end).
    destruct (String.eqb header "Name").
    + cbn [snd]. destruct (String.eqb v "") eqn:Hv; [reflexivity|exact Hv].
    + destruct (String.eqb header "KPI (%)").
      * cbn [snd]. pose proof (kpiText_nonempty other v) as Hne.
        apply String.eqb_neq in Hne. rewrite Hne. exact Hne.
      * cbn [snd]. destruct (String.eqb v "") eqn:Hv; [reflexivity|exact Hv].
  - intros row header Hk Hf. unfold renderCell. rewrite Hf, Hk.
    destruct (String.eqb header "Name"); reflexivity.
  - intros row Hk. unfold renderCell.
    change (getField row "KPI (%)") with (Some (KPIPercent row)). rewrite Hk.
    reflexivity.
Qed.

(** ** The file *)

(** The file read back by a standard reader: when every value that holds a
    double quote also holds a comma or a line feed, the reader returns the
    header row and then the values of every record, in order. *)
Theorem csv_round_trip (first : AttendanceRecord) (rest : list AttendanceRecord)
    (name : string) :
  restorableRows (first :: rest) = true ->
  exists blob,
    toCsvBlob_ (first :: rest) name = Some blob
    /\ Csv.parse (content blob)
       = Some (recordKeys :: map recordValues (first :: rest)).
Proof.
  intros H. apply CsvFacts.csv_round_trip_restorable; [discriminate|].
  unfold restorableRows in H. rewrite forallb_forall in H.
  apply Forall_forall. intros row Hrow. apply H, list_elem_of_In, Hrow.
Qed.

Lemma csv_round_trip_witness :
  restorableRows
    [Rec "4.Finance" "Lee, Ann" "E1" "" "" "1" "" "0" "0.95";
     Rec "3. M_BI" "Bo" "E2" "P" "" "" "" "" "1"] = true
  /\ exists blob,
       toCsvBlob_
         [Rec "4.Finance" "Lee, Ann" "E1" "" "" "1" "" "0" "0.95";
          Rec "3. M_BI" "Bo" "E2" "P" "" "" "" "" "1"] "Attendance.csv"
       = Some blob
       /\ Csv.parse (content blob)
          = Some (recordKeys
                  :: map recordValues
                       [Rec "4.Finance" "Lee, Ann" "E1" "" "" "1" "" "0" "0.95";
                        Rec "3. M_BI" "Bo" "E2" "P" "" "" "" "" "1"]).
Proof.
  split; [reflexivity|].
  apply csv_round_trip. reflexivity.
Defined.

(** ** The subject line *)

(** The label of a department in the subject and the greeting: the name
    the table gives for one of its eight codes, and the word undefined for
    any other department that is not named after a member every object
    inherits. *)
Theorem subject_names_unlisted_department_undefined :
  (forall code label weekNum,
     In (code, label) Mail.DEPT_MAP ->
     Mail.subjectOf code weekNum = ("Attendance (" ++ label ++ ") " ++ weekNum)%string)
  /\ (forall department weekNum,
        existsb (fun code => String.eqb code department) (map fst Mail.DEPT_MAP) = false ->
        ownName department = true ->
        Mail.subjectOf department weekNum
        = ("Attendance (undefined) " ++ weekNum)%string
        /\ Mail.greetingOf department = "Dear undefined's HOD,").
Proof.
  split.
  - intros code label weekNum Hin. cbn [Mail.DEPT_MAP In] in Hin.
    repeat (destruct Hin as [[= <- <-] | Hin]; [reflexivity|]). contradiction.
  - intros department weekNum H _. cbn [Mail.DEPT_MAP map fst existsb] in H.
    repeat (apply orb_false_iff in H as [? H]).
    assert (Hnone : Mail.displayName department = None).
    { unfold Mail.displayName, Mail.DEPT_MAP. cbn [List.find fst].
      repeat match goal with
             | Heq : String.eqb _ department = false |- _ => rewrite Heq; clear Heq
             end.
      reflexivity. }
    unfold Mail.subjectOf, Mail.greetingOf. rewrite Hnone. split; reflexivity.
Qed.

End AttendanceRuns.

(** * Reading the two sheets *)

Module IngestFacts.

Import Attendance Ingest AttendanceWords AttendanceFacts GroupingKeys.

Lemma trimEnd_cons (a : ascii) (r : string) :
  trimEnd (String a r)
  = match trimEnd r with
    | EmptyString => if isWhiteSpace a then EmptyString else String a EmptyString
    | r' => String a r'
    end.
Proof. reflexivity. Qed.

Lemma trimEnd_idem (s : string) : trimEnd (trimEnd s) = trimEnd s.
Proof.
  induction s as [|a r IH]; [reflexivity|].
  rewrite trimEnd_cons. destruct (trimEnd r) as [|b r'] eqn:E.
  - destruct (isWhiteSpace a) eqn:W; [reflexivity|].
    rewrite trimEnd_cons. cbn [trimEnd]. rewrite W. reflexivity.
  - rewrite trimEnd_cons, IH. reflexivity.
Qed.

Lemma trimStart_head (s : string) :
  trimStart s = ""
  \/ exists a r, trimStart s = String a r /\ isWhiteSpace a = false.
Proof.
  induction s as [|a r IH]; [left; reflexivity|].
  cbn [trimStart]. destruct (isWhiteSpace a) eqn:W; [exact IH|].
  right. exists a, r. split; [reflexivity|exact W].
Qed.

Lemma trimEnd_head (a : ascii) (r : string) :
  isWhiteSpace a = false -> exists r', trimEnd (String a r) = String a r'.
Proof.
  intros W. rewrite trimEnd_cons. destruct (trimEnd r) as [|b r'].
  - rewrite W. eexists. reflexivity.
  - eexists. reflexivity.
Qed.

(** Trimming a trimmed text changes nothing. *)
Lemma trim_idem (s : string) : trim (trim s) = trim s.
Proof.
  unfold trim. destruct (trimStart_head s) as [E | (a & r & E & W)]; rewrite E.
  - reflexivity.
  - destruct (trimEnd_head a r W) as [r' E']. rewrite E'.
    cbn [trimStart]. rewrite W, <- E'. apply trimEnd_idem.
Qed.

Section Host.

Variable Date_toString : Z -> string.
Variable Number_toString_other : number -> string.
Variable trySend : string -> string -> list AttendanceRecord -> bool.

#[local] Abbreviation fieldAt := (Ingest.fieldAt Date_toString Number_toString_other).
#[local] Abbreviation isNamed := (Ingest.isNamed Date_toString Number_toString_other).
#[local] Abbreviation trimmedText := (Ingest.trimmedText Date_toString Number_toString_other).
#[local] Abbreviation findHeaderRow := (Ingest.findHeaderRow Date_toString Number_toString_other).
#[local] Abbreviation getAttendanceRows_ :=
  (Ingest.getAttendanceRows_ Date_toString Number_toString_other).
#[local] Abbreviation getDeptEmails_ := (Ingest.getDeptEmails_ Date_toString Number_toString_other).
#[local] Abbreviation emailStep := (Ingest.emailStep Date_toString Number_toString_other).
#[local] Abbreviation noDepartmentCell :=
  (AttendanceWords.noDepartmentCell Date_toString Number_toString_other).
#[local] Abbreviation emailsOf := (AttendanceWords.emailsOf Date_toString Number_toString_other).

Lemma fieldAt_trimmed (row : list cell) (idx : nat) :
  trim (fieldAt row idx) = fieldAt row idx.
Proof.
  unfold Ingest.fieldAt. destruct (row !! idx) as [c|]; [|reflexivity].
  destruct (truthy c); [|reflexivity].
  unfold Ingest.trimmedText. destruct (cellToString _ _ c); simpl; [|reflexivity].
  apply trim_idem.
Qed.

(** *** The search for the header row *)

Lemma findHeaderRow_None (values : list (list cell)) (i : nat) :
  findHeaderRow values i = None <-> forallb noDepartmentCell values = true.
Proof.
  revert i. induction values as [|r rest IH]; intros i; [cbn; tauto|].
  cbn [Ingest.findHeaderRow forallb]. unfold AttendanceWords.noDepartmentCell at 1.
  destruct (existsb _ r); cbn [negb andb]; [split; discriminate|apply IH].
Qed.

Lemma findHeaderRow_S (values : list (list cell)) (i : nat) :
  findHeaderRow values (S i) = S <$> findHeaderRow values i.
Proof.
  revert i. induction values as [|r rest IH]; intros i; [reflexivity|].
  cbn [Ingest.findHeaderRow]. destruct (existsb _ r); [reflexivity|apply IH].
Qed.

Lemma findHeaderRow_add (values : list (list cell)) (n : nat) :
  findHeaderRow values n = (fun k => (n + k)%nat) <$> findHeaderRow values 0.
Proof.
  induction n as [|n IH].
  - destruct (findHeaderRow values 0); reflexivity.
  - rewrite findHeaderRow_S, IH. destruct (findHeaderRow values 0); reflexivity.
Qed.

Lemma findHeaderRow_app (pre rest : list (list cell)) (i : nat) :
  findHeaderRow (pre ++ rest) i
  = match findHeaderRow pre i with
    | Some k => Some k
    | None => findHeaderRow rest (length pre + i)
    end.
Proof.
  revert i. induction pre as [|r pre IH]; intros i; [reflexivity|].
  cbn [app Ingest.findHeaderRow length]. destruct (existsb _ r); [reflexivity|].
  rewrite IH. replace (length pre + S i)%nat with (S (length pre) + i)%nat by lia.
  reflexivity.
Qed.

Lemma findHeaderRow_lt (values : list (list cell)) (k : nat) :
  findHeaderRow values 0 = Some k -> (k < length values)%nat.
Proof.
  revert k. induction values as [|r rest IH]; intros k; [discriminate|].
  cbn [Ingest.findHeaderRow length]. destruct (existsb _ r).
  - intros [= <-]. lia.
  - rewrite findHeaderRow_S. destruct (findHeaderRow rest 0) as [j|]; [|discriminate].
    intros [= <-]. specialize (IH j eq_refl). lia.
Qed.

Lemma blank_row_not_named (name : string) (r : list cell) :
  notBlankRow r = false -> existsb (isNamed name) r = false.
Proof.
  unfold notBlankRow. induction r as [|c r IH]; [reflexivity|].
  cbn [existsb]. intros H. apply orb_false_iff in H as [Hc Hr].
  rewrite (IH Hr), orb_false_r. apply negb_false_iff, bool_decide_eq_true in Hc.
  subst c. reflexivity.
Qed.

(** The part of [getAttendanceRows_] after the header row was found. *)
Lemma getAttendanceRows_from (values : list (list cell)) (i : nat) :
  (1 < length values)%nat ->
  findHeaderRow values 0 = Some i ->
  getAttendanceRows_ values
  = match mapM trimmedText (default [] (values !! i)) with
    | None => inr TypeError
    | Some headers =>
      match attendanceHeaderMap headers with
      | None => inr (Error missingAttendanceHeader)
      | Some hm =>
        inl (map (recordOf Date_toString Number_toString_other hm)
                 (List.filter notBlankRow (drop (S i) values)))
      end
    end.
Proof.
  intros Hlen Hfind. unfold Ingest.getAttendanceRows_.
  rewrite (proj2 (Nat.leb_gt _ _) Hlen), Hfind. reflexivity.
Qed.

Lemma getAttendanceRows_not_found (values : list (list cell)) :
  (1 < length values)%nat ->
  findHeaderRow values 0 = None ->
  getAttendanceRows_ values = inr (Error missingDepartment).
Proof.
  intros Hlen Hfind. unfold Ingest.getAttendanceRows_.
  rewrite (proj2 (Nat.leb_gt _ _) Hlen), Hfind. reflexivity.
Qed.

(** A sheet of at most one row gives no record and no error, whatever the
    row holds; a longer sheet is refused for its Department header exactly
    when no cell of any row reads Department. *)
Theorem attendance_sheet_without_department_header (values : list (list cell)) :
  ((length values <= 1)%nat -> getAttendanceRows_ values = inl [])
  /\ (getAttendanceRows_ values = inr (Error missingDepartment)
      <-> (1 < length values)%nat /\ forallb noDepartmentCell values = true).
Proof.
  split.
  - intros H. unfold Ingest.getAttendanceRows_.
    rewrite (proj2 (Nat.leb_le _ _) H). reflexivity.
  - split.
    + intros H. destruct (Nat.leb (length values) 1) eqn:L.
      { unfold Ingest.getAttendanceRows_ in H. rewrite L in H. discriminate H. }
      apply Nat.leb_gt in L. split; [exact L|].
      destruct (findHeaderRow values 0) as [i|] eqn:F.
      * rewrite (getAttendanceRows_from values i L F) in H.
        destruct (mapM _ _); [|discriminate H].
        destruct (attendanceHeaderMap _); discriminate H.
      * apply (findHeaderRow_None values 0). exact F.
    + intros [L F]. apply getAttendanceRows_not_found; [exact L|].
      apply findHeaderRow_None. exact F.
Qed.

(** Every value of every record read off the sheet is trimmed: no record
    holds a value with white space at either end. *)
Theorem attendance_values_are_trimmed (values : list (list cell))
    (records : list AttendanceRecord) :
  getAttendanceRows_ values = inl records ->
  Forall (fun r => Forall (fun v => trim v = v) (recordValues r)) records.
Proof.
  unfold Ingest.getAttendanceRows_. destruct (Nat.leb (length values) 1).
  { intros [= <-]. constructor. }
  destruct (findHeaderRow values 0) as [i|]; [|discriminate].
  destruct (mapM _ _) as [headers|]; [|discriminate].
  destruct (attendanceHeaderMap headers) as [hm|]; [|discriminate].
  intros [= <-]. apply List.Forall_map, Forall_forall. intros row _.
  unfold recordOf, recordValues. cbn.
  repeat (constructor; [apply fieldAt_trimmed|]). constructor.
Qed.

Lemma lookup_app_plus {A : Type} (l1 l2 : list A) (i : nat) :
  (l1 ++ l2) !! (length l1 + i)%nat = l2 !! i.
Proof. rewrite lookup_app_r by lia. f_equal. lia. Qed.

(** Rows at the top of the sheet that hold no cell reading Department (a
    title, a date line) change nothing of what is read, records or error,
    when at least two rows follow them. *)
Theorem rows_above_the_header_are_ignored (titles : list (list cell))
    (header r : list cell) (body : list (list cell)) :
  forallb noDepartmentCell titles = true ->
  getAttendanceRows_ (titles ++ header :: r :: body)
  = getAttendanceRows_ (header :: r :: body).
Proof.
  intros Ht. set (rest := header :: r :: body).
  assert (Hlen2 : (1 < length rest)%nat) by (cbn [rest length]; lia).
  assert (Hlen1 : (1 < length (titles ++ rest))%nat)
    by (rewrite length_app; lia).
  assert (Hfind : findHeaderRow (titles ++ rest) 0
                  = (fun k => (length titles + k)%nat) <$> findHeaderRow rest 0).
  { rewrite findHeaderRow_app.
    rewrite (proj2 (findHeaderRow_None titles 0) Ht), Nat.add_0_r.
    apply findHeaderRow_add. }
  destruct (findHeaderRow rest 0) as [k|] eqn:F.
  - rewrite (getAttendanceRows_from _ _ Hlen1 Hfind).
    rewrite (getAttendanceRows_from _ _ Hlen2 F).
    rewrite lookup_app_plus.
    replace (S (length titles + k)) with (length titles + S k)%nat by lia.
    rewrite drop_app_add. reflexivity.
  - rewrite (getAttendanceRows_not_found _ Hlen1 Hfind).
    rewrite (getAttendanceRows_not_found _ Hlen2 F). reflexivity.
Qed.

(** A completely blank row, wherever it stands in a sheet that has at
    least two other rows, changes nothing of what is read. *)
Theorem blank_rows_are_ignored (pre : list (list cell)) (blank : list cell)
    (post : list (list cell)) :
  notBlankRow blank = false ->
  (1 <? length (pre ++ post))%nat = true ->
  getAttendanceRows_ (pre ++ blank :: post) = getAttendanceRows_ (pre ++ post).
Proof.
  intros Hb Hlen2. apply Nat.ltb_lt in Hlen2.
  assert (Hlen1 : (1 < length (pre ++ blank :: post))%nat).
  { rewrite length_app in *. cbn [length]. lia. }
  assert (Hskip : forall n, findHeaderRow (blank :: post) n
                            = S <$> findHeaderRow post n).
  { intros n. cbn [Ingest.findHeaderRow].
    rewrite (blank_row_not_named "Department" blank Hb). apply findHeaderRow_S. }
  assert (Hf1 := findHeaderRow_app pre (blank :: post) 0).
  assert (Hf2 := findHeaderRow_app pre post 0).
  rewrite Nat.add_0_r in Hf1, Hf2. rewrite Hskip in Hf1.
  destruct (findHeaderRow pre 0) as [k|] eqn:Fp.
  - pose proof (findHeaderRow_lt pre k Fp) as Hk.
    rewrite (getAttendanceRows_from _ _ Hlen1 Hf1).
    rewrite (getAttendanceRows_from _ _ Hlen2 Hf2).
    rewrite !lookup_app_l by exact Hk.
    rewrite !drop_app_le by lia. rewrite !List.filter_app.
    cbn [List.filter]. rewrite Hb. reflexivity.
  - rewrite (findHeaderRow_add post (length pre)) in Hf1, Hf2.
    destruct (findHeaderRow post 0) as [j|] eqn:Fq.
    + cbn [fmap option_fmap option_map] in Hf1, Hf2.
      rewrite (getAttendanceRows_from _ _ Hlen1 Hf1).
      rewrite (getAttendanceRows_from _ _ Hlen2 Hf2).
      replace (S (length pre + j)) with (length pre + S j)%nat at 1 by lia.
      rewrite !lookup_app_plus.
      replace (S (S (length pre + j))) with (length pre + S (S j))%nat by lia.
      replace (S (length pre + j)) with (length pre + S j)%nat by lia.
      rewrite !drop_app_add. reflexivity.
    + cbn [fmap option_fmap option_map] in Hf1, Hf2.
      rewrite (getAttendanceRows_not_found _ Hlen1 Hf1).
      rewrite (getAttendanceRows_not_found _ Hlen2 Hf2). reflexivity.
Qed.

(** *** The map of recipients *)

Lemma emailFold_lookup (colDept colEmails : nat) (rows : list (list cell))
    (d : string) :
  fold_left (emailStep colDept colEmails) rows ∅ !! d
  = if String.eqb d "" || String.eqb d "__proto__" then None
    else emailsOf colDept colEmails rows d.
Proof.
  induction rows as [|x rows IH] using rev_ind.
  - cbn [fold_left]. rewrite lookup_empty.
    destruct (String.eqb d "" || String.eqb d "__proto__"); reflexivity.
  - rewrite fold_left_app. cbn [fold_left]. unfold Ingest.emailStep at 1.
    unfold AttendanceWords.emailsOf in *. rewrite List.filter_app.
    cbn [List.filter].
    destruct (String.eqb (fieldAt x colDept) "") eqn:E1; cbn [negb].
    { rewrite IH. destruct (String.eqb d "") eqn:Ed; [reflexivity|].
      cbn [orb]. destruct (String.eqb d "__proto__"); [reflexivity|].
      apply String.eqb_eq in E1. rewrite E1.
      rewrite String.eqb_sym, Ed, app_nil_r. reflexivity. }
    destruct (String.eqb (fieldAt x colDept) "__proto__") eqn:E2.
    { rewrite IH. destruct (String.eqb d ""); [reflexivity|]. cbn [orb].
      destruct (String.eqb d "__proto__") eqn:Ed; [reflexivity|].
      apply String.eqb_eq in E2. rewrite E2.
      rewrite String.eqb_sym, Ed, app_nil_r. reflexivity. }
    destruct (String.eqb (fieldAt x colDept) d) eqn:E3.
    + apply String.eqb_eq in E3. rewrite <- E3, lookup_insert_eq, E1, E2.
      cbn [orb]. rewrite last_snoc. reflexivity.
    + apply String.eqb_neq in E3. rewrite lookup_insert_ne by exact E3.
      rewrite IH, app_nil_r. reflexivity.
Qed.

(** With both headers present, the recipients of a department are those of
    the last row that names it (names and recipients trimmed); rows without
    department add nothing. *)
Theorem email_map_keeps_last_row_of_each_department
    (header row : list cell) (rows : list (list cell)) (headers : list string)
    (colDept colEmails : nat) :
  mapM trimmedText header = Some headers ->
  indexOf "Department" headers 0 = Some colDept ->
  indexOf "Emails" headers 0 = Some colEmails ->
  exists emailMap,
    getDeptEmails_ (header :: row :: rows) = inl emailMap
    /\ forall d,
         emailMap !! d
         = if String.eqb d "" || String.eqb d "__proto__" then None
           else emailsOf colDept colEmails (row :: rows) d.
Proof.
  intros Hh Hd He. eexists. split.
  - unfold Ingest.getDeptEmails_. cbn [length Nat.leb]. rewrite Hh, Hd, He.
    reflexivity.
  - intros d. apply emailFold_lookup.
Qed.

Lemma email_map_entries (values : list (list cell)) (emailMap : gmap string string)
    (d to_ : string) :
  getDeptEmails_ values = inl emailMap ->
  emailMap !! d = Some to_ ->
  d <> "" /\ trim to_ = to_.
Proof.
  unfold Ingest.getDeptEmails_. destruct (Nat.leb (length values) 1).
  { intros [= <-]. rewrite lookup_empty. discriminate. }
  destruct values as [|header rows]. { intros [= <-]. rewrite lookup_empty. discriminate. }
  destruct (mapM _ header) as [headers|]; [|discriminate].
  destruct (indexOf "Department" headers 0) as [colDept|]; [|discriminate].
  destruct (indexOf "Emails" headers 0) as [colEmails|]; [|discriminate].
  intros [= <-]. rewrite emailFold_lookup.
  destruct (String.eqb d "") eqn:Ed; [discriminate|]. cbn [orb].
  destruct (String.eqb d "__proto__"); [discriminate|].
  apply String.eqb_neq in Ed. intros H. split; [exact Ed|].
  unfold AttendanceWords.emailsOf in H. destruct (last _) as [x|]; [|discriminate H].
  cbn in H. injection H as <-. apply fieldAt_trimmed.
Qed.

(** *** The run over the two sheets *)

(** When the Attendance sheet gives at least one record and the DeptEmails
    sheet gives a map, the run completes, and a send is attempted for a
    department exactly when some record is of it and the map holds
    recipients for it that are not empty.  The departments are not named
    after a member every object inherits. *)
Theorem run_from_sheets_attempts (attendanceValues deptEmailsValues : list (list cell))
    (row : AttendanceRecord) (rows : list AttendanceRecord)
    (emailMap : gmap string string) :
  getAttendanceRows_ attendanceValues = inl (row :: rows) ->
  getDeptEmails_ deptEmailsValues = inl emailMap ->
  ownNamesOnly (row :: rows) = true ->
  exists s,
    sendAttendanceFromSheets Date_toString Number_toString_other trySend
      (Some attendanceValues) (Some deptEmailsValues) = Ran (Completed s)
    /\ forall d,
         d ∈ sendAttempts s
         <-> (exists r, r ∈ row :: rows /\ Department r = d)
             /\ exists to_, emailMap !! d = Some to_ /\ to_ <> "".
Proof.
  intros Ha He Hown.
  destruct (AttendanceRuns.run_outcome trySend row rows emailMap Hown)
    as (_ & s & Hrun & Hatt & _).
  exists s. split.
  - unfold sendAttendanceFromSheets. rewrite Ha, He. cbn [length Nat.eqb].
    rewrite Hrun. reflexivity.
  - intros d. rewrite Hatt, list_elem_of_In, filter_In, <- list_elem_of_In.
    rewrite grouping_keys_elem. unfold hasRecipients. split.
    + intros [[Hd Hrow] Hrec]. split; [exact Hrow|].
      destruct (emailMap !! d) as [to_|] eqn:Hm; [|discriminate Hrec].
      exists to_. split; [reflexivity|].
      destruct (email_map_entries _ _ _ _ He Hm) as [_ Ht].
      rewrite Ht in Hrec. apply negb_true_iff, String.eqb_neq in Hrec. exact Hrec.
    + intros [Hrow (to_ & Hm & Hne)].
      destruct (email_map_entries _ _ _ _ He Hm) as [Hd Ht].
      split; [split; [exact Hd|exact Hrow]|].
      rewrite Hm, Ht. apply negb_true_iff, String.eqb_neq. exact Hne.
Qed.

End Host.

Lemma attendance_values_are_trimmed_witness :
  Ingest.getAttendanceRows_ sampleDate sampleNumber sampleAttendanceSheet
  = inl sampleSheetRecords
  /\ Forall (fun r => Forall (fun v => trim v = v) (recordValues r))
            sampleSheetRecords.
Proof.
  split; [reflexivity|].
  apply (attendance_values_are_trimmed sampleDate sampleNumber sampleAttendanceSheet).
  reflexivity.
Defined.

Lemma rows_above_the_header_are_ignored_witness :
  forallb (noDepartmentCell sampleDate sampleNumber) [sampleTitleRow; sampleBlankRow]
  = true
  /\ Ingest.getAttendanceRows_ sampleDate sampleNumber
       ([sampleTitleRow; sampleBlankRow]
        ++ sampleHeaderRow :: sampleBlankRow :: sampleDataRows)
     = Ingest.getAttendanceRows_ sampleDate sampleNumber
         (sampleHeaderRow :: sampleBlankRow :: sampleDataRows).
Proof.
  split; [reflexivity|].
  apply rows_above_the_header_are_ignored. reflexivity.
Defined.

Lemma blank_rows_are_ignored_witness :
  notBlankRow sampleBlankRow = false
  /\ (1 <? length ([sampleTitleRow; sampleHeaderRow] ++ sampleDataRows))%nat = true
  /\ Ingest.getAttendanceRows_ sampleDate sampleNumber
       ([sampleTitleRow; sampleHeaderRow] ++ sampleBlankRow :: sampleDataRows)
     = Ingest.getAttendanceRows_ sampleDate sampleNumber
         ([sampleTitleRow; sampleHeaderRow] ++ sampleDataRows).
Proof.
  split; [reflexivity|]. split; [reflexivity|].
  apply blank_rows_are_ignored; reflexivity.
Defined.

Lemma email_map_keeps_last_row_of_each_department_witness :
  mapM (Ingest.trimmedText sampleDate sampleNumber) sampleEmailHeader
  = Some ["Department"; "Emails"]
  /\ indexOf "Department" ["Department"; "Emails"] 0 = Some 0%nat
  /\ indexOf "Emails" ["Department"; "Emails"] 0 = Some 1%nat
  /\ exists emailMap,
       Ingest.getDeptEmails_ sampleDate sampleNumber
         (sampleEmailHeader :: [CStr "4.Finance"; CStr "old@example.org"]
          :: tail sampleEmailRows)
       = inl emailMap
       /\ forall d,
            emailMap !! d
            = if String.eqb d "" || String.eqb d "__proto__" then None
              else emailsOf sampleDate sampleNumber 0 1
                     ([CStr "4.Finance"; CStr "old@example.org"]
                      :: tail sampleEmailRows) d.
Proof.
  split; [reflexivity|]. split; [reflexivity|]. split; [reflexivity|].
  apply (email_map_keeps_last_row_of_each_department sampleDate sampleNumber
           sampleEmailHeader [CStr "4.Finance"; CStr "old@example.org"]
           (tail sampleEmailRows) ["Department"; "Emails"] 0 1); reflexivity.
Defined.

Lemma run_from_sheets_attempts_witness :
  Ingest.getAttendanceRows_ sampleDate sampleNumber sampleAttendanceSheet
  = inl (Rec "4.Finance" "Ann" "E1" "P" "P" "1" "" "" "0.95"
         :: tail sampleSheetRecords)
  /\ Ingest.getDeptEmails_ sampleDate sampleNumber sampleEmailSheet
     = inl sampleEmailMap
  /\ ownNamesOnly (Rec "4.Finance" "Ann" "E1" "P" "P" "1" "" "" "0.95"
                   :: tail sampleSheetRecords) = true
  /\ exists s,
       sendAttendanceFromSheets sampleDate sampleNumber (fun _ _ _ => true)
         (Some sampleAttendanceSheet) (Some sampleEmailSheet) = Ran (Completed s)
       /\ forall d,
            d ∈ sendAttempts s
            <-> (exists r,
                   r ∈ Rec "4.Finance" "Ann" "E1" "P" "P" "1" "" "" "0.95"
                       :: tail sampleSheetRecords
                   /\ Department r = d)
                /\ exists to_, sampleEmailMap !! d = Some to_ /\ to_ <> "".
Proof.
  split; [reflexivity|]. split; [reflexivity|]. split; [reflexivity|].
  apply (run_from_sheets_attempts sampleDate sampleNumber (fun _ _ _ => true)
           sampleAttendanceSheet sampleEmailSheet
           (Rec "4.Finance" "Ann" "E1" "P" "P" "1" "" "" "0.95")
           (tail sampleSheetRecords) sampleEmailMap); reflexivity.
Defined.

End IngestFacts.
